(** * PedroCLI fine-tuning data pipeline

    A shallow embedding of [finetune/collect_data.py] (collection stage) and
    [finetune/prepare_dataset.py] (preparation stage), with the properties of
    the aggregation, quality filter, formatter, splitter and JSONL framing.

    Python values are modelled as follows.
    - [None]/SQL NULL in a text column: [option string].
    - [float]: IEEE-754 binary64, [spec_float] with [prec = 53], [emax = 1024].
    - a JSON document (the result of [json.loads], a JSON/JSONB column):
      the inductive [json]; objects are [gmap string json], so that
      equality of two objects is Python's [dict] equality.
    - an exception: the [Raise] constructor of [result]. *)

From Stdlib Require Import ZArith List Bool Lia Ascii String.
From Stdlib Require Import Floats.SpecFloat.
From Stdlib Require Import Sorting.Permutation.
From stdpp Require Import base option list strings gmap pretty.

Set Warnings "-register-all".

Open Scope string_scope.
Open Scope list_scope.
Open Scope Z_scope.

(** ** Exceptions *)

Inductive py_error : Type :=
  | KeyError
  | TypeError
  | AttributeError
  | ValueError
  | OverflowError
  | IndexError
  | JSONDecodeError
  | ZeroDivisionError
  | SystemExit.

Inductive result (A : Type) : Type :=
  | Ok (a : A)
  | Raise (e : py_error).
Arguments Ok {A} a.
Arguments Raise {A} e.

Definition rbind {A B : Type} (r : result A) (k : A -> result B) : result B :=
  match r with
  | Ok a => k a
  | Raise e => Raise e
  end.

Notation "'do' x <- r ; k" := (rbind r (fun x => k))
  (at level 10, x pattern, r at level 100, k at level 200).

(** A list comprehension / accumulating [for] loop whose body may raise:
    the first exception aborts the whole loop. *)
Fixpoint rmap {A B : Type} (f : A -> result B) (l : list A) : result (list B) :=
  match l with
  | [] => Ok []
  | a :: l' =>
      do b <- f a;
      do bs <- rmap f l';
      Ok (b :: bs)
  end.

(** ** Binary64 floats *)

Definition prec64 : Z := 53.
Definition emax64 : Z := 1024.

Definition float_one : spec_float := S754_finite false 4503599627370496 (-52).
Definition float_zero : spec_float := S754_zero false.

(** Python's [x >= y] on floats. *)
Definition float_ge (x y : spec_float) : bool := SFleb y x.

(** Truth value of a float: only [0.0] and [-0.0] are falsy; NaN is truthy. *)
Definition float_truthy (x : spec_float) : bool :=
  match x with
  | S754_zero _ => false
  | _ => true
  end.

(** ** JSON documents *)

Inductive json : Type :=
  | JNull
  | JBool (b : bool)
  | JInt (z : Z)
  | JFloat (f : spec_float)
  | JStr (s : string)
  | JArr (l : list json)
  | JObj (m : gmap string json).

(** Truth value of a Python object obtained from a JSON document. *)
Definition json_truthy (v : json) : bool :=
  match v with
  | JNull => false
  | JBool b => b
  | JInt z => negb (Z.eqb z 0)
  | JFloat f => float_truthy f
  | JStr s => negb (String.eqb s "")
  | JArr l => match l with [] => false | _ => true end
  | JObj m => negb (Nat.eqb (size m) 0)
  end.

(** Truth value of an optional text ([None] and [''] are falsy). *)
Definition text_truthy (t : option string) : bool :=
  match t with
  | None => false
  | Some s => negb (String.eqb s "")
  end.

(** ** Collection stage ([collect_data.py]) *)

(** Rows of the two tables read by the collector. A NULL column is [None]. *)
Record blog_post : Type := {
  raw_transcription : option string;
  final_content : option string;
  title : option string;
  post_id : Z;
  status : option string
}.

Record training_pair : Type := {
  col_input_text : option string;
  col_output_text : option string;
  col_source_type : option string;
  col_quality_score : option spec_float;
  col_metadata : option json
}.

Record store : Type := {
  blog_posts : list blog_post;
  training_pairs : list training_pair
}.

(** The dataclass [TrainingExample]. The annotation of the text fields is
    [str], but the constructor stores whatever the caller passes, so the
    fields are optional here. *)
Record TrainingExample : Type := {
  input_text : option string;
  output_text : option string;
  source_type : option string;
  quality_score : spec_float;
  metadata : json
}.

Record DataCollector : Type := {
  conn : store;
  examples : list TrainingExample
}.

Definition json_of_text (t : option string) : json :=
  match t with
  | Some s => JStr s
  | None => JNull
  end.

(** [WHERE raw_transcription IS NOT NULL AND final_content IS NOT NULL
     AND status IN ('published', 'public')] *)
Definition blog_posts_where (r : blog_post) : bool :=
  bool_decide (raw_transcription r <> None)
  && bool_decide (final_content r <> None)
  && match status r with
     | Some s => String.eqb s "published" || String.eqb s "public"
     | None => false
     end.

(** [WHERE output_text IS NOT NULL AND output_text != ''] *)
Definition training_pairs_where (r : training_pair) : bool :=
  match col_output_text r with
  | Some s => negb (String.eqb s "")
  | None => false
  end.

Definition blog_example (r : blog_post) : TrainingExample :=
  {| input_text := raw_transcription r;
     output_text := final_content r;
     source_type := Some "blog";
     quality_score := float_one;
     metadata := JObj (<["post_id" := JStr (pretty (post_id r))]>
                       (<["title" := json_of_text (title r)]> ∅)) |}.

(** The body of the [for] loop of [collect_from_blog_posts]. *)
Fixpoint blog_posts_loop (rows : list blog_post) (acc : list TrainingExample)
  : list TrainingExample :=
  match rows with
  | [] => acc
  | r :: rows' =>
      if text_truthy (raw_transcription r) && text_truthy (final_content r)
      then blog_posts_loop rows' (acc ++ [blog_example r])
      else blog_posts_loop rows' acc
  end.

Definition collect_from_blog_posts (c : DataCollector) : DataCollector :=
  let rows := List.filter blog_posts_where (blog_posts (conn c)) in
  {| conn := conn c; examples := blog_posts_loop rows (examples c) |}.

(** [quality_score or 1.0] *)
Definition quality_or_default (q : option spec_float) : spec_float :=
  match q with
  | Some f => if float_truthy f then f else float_one
  | None => float_one
  end.

(** [metadata or {}] *)
Definition metadata_or_default (m : option json) : json :=
  match m with
  | Some v => if json_truthy v then v else JObj ∅
  | None => JObj ∅
  end.

Definition pair_example (r : training_pair) : TrainingExample :=
  {| input_text := col_input_text r;
     output_text := col_output_text r;
     source_type := col_source_type r;
     quality_score := quality_or_default (col_quality_score r);
     metadata := metadata_or_default (col_metadata r) |}.

(** The body of the [for] loop of [collect_from_training_pairs]. *)
Fixpoint training_pairs_loop (rows : list training_pair)
    (acc : list TrainingExample) : list TrainingExample :=
  match rows with
  | [] => acc
  | r :: rows' => training_pairs_loop rows' (acc ++ [pair_example r])
  end.

Definition collect_from_training_pairs (c : DataCollector) : DataCollector :=
  let rows := List.filter training_pairs_where (training_pairs (conn c)) in
  {| conn := conn c; examples := training_pairs_loop rows (examples c) |}.

(** The placeholder only prints. *)
Definition collect_from_twitch (c : DataCollector) : DataCollector := c.

Definition filter_by_quality (min_score : spec_float) (c : DataCollector)
  : DataCollector :=
  {| conn := conn c;
     examples :=
       List.filter (fun ex => float_ge (quality_score ex) min_score)
                   (examples c) |}.

(** [main] of the collection stage up to the point where the collection is
    saved: a failed connection exits, otherwise the sources are collected in
    order and the result is filtered. *)
Definition collect_main (db : option store) (twitch_dir : option string)
    (min_quality : spec_float) : result DataCollector :=
  match db with
  | None => Raise SystemExit
  | Some st =>
      let c := {| conn := st; examples := [] |} in
      let c := collect_from_blog_posts c in
      let c := collect_from_training_pairs c in
      let c := match twitch_dir with
               | Some d => if negb (String.eqb d "") then collect_from_twitch c else c
               | None => c
               end in
      Ok (filter_by_quality min_quality c)
  end.

(** ** Newline-delimited JSON artifacts *)

(** Python's [json] module, used by both stages, is taken as an interface:
    [json_dumps] is [json.dumps] and [json_loads] is [json.loads], which
    raises [JSONDecodeError] on malformed text. *)
Class JsonCodec : Type := {
  json_dumps : json -> string;
  json_loads : string -> result json
}.

Definition LF : ascii := ascii_of_nat 10.
Definition CR : ascii := ascii_of_nat 13.
Definition newline : string := String LF EmptyString.

(** [dataclasses.asdict] on a [TrainingExample]. *)
Definition to_dict (ex : TrainingExample) : json :=
  JObj (<["input_text" := json_of_text (input_text ex)]>
       (<["output_text" := json_of_text (output_text ex)]>
       (<["source_type" := json_of_text (source_type ex)]>
       (<["quality_score" := JFloat (quality_score ex)]>
       (<["metadata" := metadata ex]> ∅))))).

(** The text written by [save_to_jsonl] / [save_jsonl]: one document per
    line, each followed by a line feed. *)
Fixpoint jsonl_text `{JsonCodec} (docs : list json) : string :=
  match docs with
  | [] => EmptyString
  | d :: docs' =>
      String.append (String.append (json_dumps d) newline) (jsonl_text docs')
  end.

Definition save_to_jsonl `{JsonCodec} (c : DataCollector) : string :=
  jsonl_text (List.map to_dict (examples c)).

(** Iterating over a file opened in text mode: the content is cut after each
    line ending; [\n], [\r\n] and [\r] all end a line and are handed to the
    caller as [\n]; a last line without line ending is handed over as it is. *)
Fixpoint file_lines_from (content : string) (cur : string) : list string :=
  match content with
  | EmptyString =>
      match cur with
      | EmptyString => []
      | _ => [cur]
      end
  | String c rest =>
      if Ascii.eqb c LF then
        String.append cur newline :: file_lines_from rest EmptyString
      else if Ascii.eqb c CR then
        match rest with
        | String c' rest' =>
            if Ascii.eqb c' LF
            then String.append cur newline :: file_lines_from rest' EmptyString
            else String.append cur newline :: file_lines_from rest EmptyString
        | EmptyString => [String.append cur newline]
        end
      else file_lines_from rest (String.append cur (String c EmptyString))
  end.

Definition file_lines (content : string) : list string :=
  file_lines_from content EmptyString.

(** The read loop of the preparation stage:
    [for line in f: examples.append(json.loads(line))]. *)
Definition load_examples `{JsonCodec} (content : string) : result (list json) :=
  rmap json_loads (file_lines content).

(** ** Preparation stage ([prepare_dataset.py]) *)

Record FormattedExample : Type := {
  instruction : string;
  input : json;
  output : json;
  source : json
}.

Definition instruction_template : string :=
"Transform the following raw dictation into a polished, narrative-driven blog post.

Guidelines:
- Identify and clearly state the central thesis
- Organize content with strong narrative flow
- Maintain authentic voice and tone
- Include engaging opening and strong conclusion
- End with clear call to action
".

(** [example['key']] on a value produced by [json.loads]. *)
Definition subscript (example : json) (key : string) : result json :=
  match example with
  | JObj m =>
      match m !! key with
      | Some v => Ok v
      | None => Raise KeyError
      end
  | _ => Raise TypeError
  end.

(** [example.get(key, dflt)] *)
Definition dict_get (example : json) (key : string) (dflt : json) : result json :=
  match example with
  | JObj m =>
      match m !! key with
      | Some v => Ok v
      | None => Ok dflt
      end
  | _ => Raise AttributeError
  end.

Definition format_as_instruction (example : json) : result FormattedExample :=
  do i <- subscript example "input_text";
  do o <- subscript example "output_text";
  do s <- dict_get example "source_type" (JStr "unknown");
  Ok {| instruction := instruction_template; input := i; output := o; source := s |}.

(** [[format_as_instruction(ex) for ex in examples]] *)
Definition format_all (examples : list json) : result (list FormattedExample) :=
  rmap format_as_instruction examples.

(** *** The splitter *)

(** Python's [random] module: the generator state, [random.seed] on an
    integer, and [_randbelow], which draws an index below its argument. *)
Class Rng (G : Type) : Type := {
  rng_seed : Z -> G;
  randbelow : nat -> G -> nat * G
}.

(** The contract of [_randbelow n]: the draw is below [n]. *)
Class RngBelow (G : Type) `{Rng G} : Prop :=
  randbelow_lt : forall (n : nat) (g : G), (0 < n)%nat -> (fst (randbelow n g) < n)%nat.

(** [x[i], x[j] = x[j], x[i]]: the right-hand side is read first. *)
Definition swap {A : Type} (x : list A) (i j : nat) : result (list A) :=
  match x !! j, x !! i with
  | Some xj, Some xi => Ok (<[j := xi]> (<[i := xj]> x))
  | _, _ => Raise IndexError
  end.

(** [random.shuffle]:
    [for i in reversed(range(1, len(x))): j = randbelow(i + 1); swap]. *)
Fixpoint shuffle_loop {A G : Type} `{Rng G} (i : nat) (x : list A) (g : G)
  : result (list A * G) :=
  match i with
  | O => Ok (x, g)
  | S i' =>
      let '(j, g') := randbelow (S i) g in
      do x' <- swap x i j;
      shuffle_loop i' x' g'
  end.

Definition shuffle {A G : Type} `{Rng G} (x : list A) (g : G) : result (list A * G) :=
  shuffle_loop (length x - 1) x g.

(** Conversion of a Python [int] to [float] (round to nearest, ties to even). *)
Definition float_of_int (z : Z) : result spec_float :=
  match binary_normalize prec64 emax64 z 0 false with
  | S754_infinity _ => Raise OverflowError
  | f => Ok f
  end.

Definition float_mul : spec_float -> spec_float -> spec_float := SFmul prec64 emax64.

(** [int(f)]: truncation toward zero. *)
Definition int_of_float (f : spec_float) : result Z :=
  match f with
  | S754_nan => Raise ValueError
  | S754_infinity _ => Raise OverflowError
  | S754_zero _ => Ok 0
  | S754_finite s m e => Ok (cond_Zopp s (Z.shiftl (Zpos m) e))
  end.

(** [int(len(examples) * train_ratio)] *)
Definition split_index (n : nat) (train_ratio : spec_float) : result Z :=
  do f <- float_of_int (Z.of_nat n);
  int_of_float (float_mul f train_ratio).

(** The position at which [x[:k]] and [x[k:]] cut a list of length [n]. *)
Definition slice_bound (k : Z) (n : nat) : nat :=
  if k <? 0 then Z.to_nat (Z.max 0 (k + Z.of_nat n))
  else Z.to_nat (Z.min k (Z.of_nat n)).

Definition split_dataset {A G : Type} `{Rng G} (examples : list A)
    (train_ratio : spec_float) (g : G) : result (list A * list A * G) :=
  do (x, g') <- shuffle examples g;
  do split_idx <- split_index (length x) train_ratio;
  let b := slice_bound split_idx (length x) in
  Ok (take b x, drop b x, g').

(** *** The stage *)

Definition formatted_to_dict (f : FormattedExample) : json :=
  JObj (<["instruction" := JStr (instruction f)]>
       (<["input" := input f]>
       (<["output" := output f]>
       (<["source" := source f]> ∅)))).

(** [len(v)] on a value produced by [json.loads]. *)
Definition py_len (v : json) : result nat :=
  match v with
  | JStr s => Ok (String.length s)
  | JArr l => Ok (length l)
  | JObj m => Ok (size m)
  | _ => Raise TypeError
  end.

(** [calc_stats]: the lengths are computed first, then the averages divide
    by the number of examples, so an empty set raises. *)
Definition calc_stats (examples : list FormattedExample) : result unit :=
  do input_lengths <- rmap (fun ex => py_len (input ex)) examples;
  do output_lengths <- rmap (fun ex => py_len (output ex)) examples;
  match input_lengths with
  | [] => Raise ZeroDivisionError
  | _ => Ok tt
  end.

(** What a run of the preparation stage leaves behind: the two files, when
    they were written, and how the process ended. *)
Record prepare_outcome : Type := {
  train_file : option string;
  val_file : option string;
  finished : result unit
}.

Definition aborted (e : py_error) : prepare_outcome :=
  {| train_file := None; val_file := None; finished := Raise e |}.

(** The split of the stage: [random.seed(args.seed)] replaces whatever state
    [g0] the generator had, then the formatted examples are split. *)
Definition prepare_split {G : Type} `{Rng G} (g0 : G) (seed : Z)
    (formatted : list FormattedExample) (train_ratio : spec_float)
  : result (list FormattedExample * list FormattedExample) :=
  let g := rng_seed seed in
  do (train, val, _) <- split_dataset formatted train_ratio g;
  Ok (train, val).

Definition prepare_main {G : Type} `{Rng G} `{JsonCodec} (g0 : G) (seed : Z)
    (content : string) (train_ratio : spec_float) : prepare_outcome :=
  match load_examples content with
  | Raise e => aborted e
  | Ok examples =>
      match format_all examples with
      | Raise e => aborted e
      | Ok formatted =>
          match prepare_split g0 seed formatted train_ratio with
          | Raise e => aborted e
          | Ok (train, val) =>
              {| train_file := Some (jsonl_text (List.map formatted_to_dict train));
                 val_file := Some (jsonl_text (List.map formatted_to_dict val));
                 finished := do _ <- calc_stats train; calc_stats val |}
          end
      end
  end.

(** *** Reference instances *)

(** The binary64 values of some decimal literals. *)
Definition float_0_9 : spec_float := S754_finite false 8106479329266893 (-53).
Definition float_0_7 : spec_float := S754_finite false 6305039478318694 (-53).
Definition float_0_5 : spec_float := S754_finite false 4503599627370496 (-53).
Definition float_1_5 : spec_float := S754_finite false 6755399441055744 (-52).

(** A linear congruential generator, used to run the splitter on concrete
    inputs. *)
Definition lcg_next (g : Z) : Z := (1103515245 * g + 12345) mod 2147483648.

#[export] Instance lcg_rng : Rng Z := {
  rng_seed := fun s => Z.abs s mod 2147483648;
  randbelow := fun n g => (Z.to_nat (lcg_next g mod Z.of_nat n), lcg_next g)
}.

(** Labeled-pairs rows used to run the collector: one whose input text is
    empty, one whose input text is NULL, one whose stored score is zero. *)
Definition pair_empty_input : training_pair :=
  {| col_input_text := Some "";
     col_output_text := Some "polished";
     col_source_type := Some "writer";
     col_quality_score := Some float_one;
     col_metadata := None |}.

Definition pair_null_input : training_pair :=
  {| col_input_text := None;
     col_output_text := Some "polished";
     col_source_type := Some "writer";
     col_quality_score := Some float_one;
     col_metadata := None |}.

Definition pair_zero_score : training_pair :=
  {| col_input_text := Some "raw";
     col_output_text := Some "polished";
     col_source_type := Some "writer";
     col_quality_score := Some (S754_zero false);
     col_metadata := None |}.

Definition store_textless_pairs : store :=
  {| blog_posts := []; training_pairs := [pair_empty_input; pair_null_input] |}.

Definition store_zero_score : store :=
  {| blog_posts := []; training_pairs := [pair_zero_score] |}.

(** A stored score is falsy when it is NULL or a zero. *)
Definition quality_falsy (q : option spec_float) : bool :=
  match q with
  | None => true
  | Some f => negb (float_truthy f)
  end.

(** The aggregator invariant of the data model: both texts are present and
    non-empty. *)
Definition texts_present (ex : TrainingExample) : bool :=
  text_truthy (input_text ex) && text_truthy (output_text ex).

(** The condition of the formatter's default in the words of the
    specification: the source type of a record is missing or empty. *)
Definition source_type_missing_or_empty (example : json) : Prop :=
  match example with
  | JObj m => m !! "source_type" = None \/ m !! "source_type" = Some (JStr "")
  | _ => False
  end.

(** A record as the collection stage writes it, with an empty source type. *)
Definition record_empty_source : json :=
  JObj (<["input_text" := JStr "raw"]>
       (<["output_text" := JStr "polished"]>
       (<["source_type" := JStr ""]> ∅))).

(** A record has both texts when it is an object with the two keys. *)
Definition has_texts (example : json) : Prop :=
  exists m i o, example = JObj m /\ m !! "input_text" = Some i
                /\ m !! "output_text" = Some o.

(** A text holds no line ending. *)
Fixpoint no_line_break (s : string) : bool :=
  match s with
  | EmptyString => true
  | String c s' => negb (Ascii.eqb c LF) && negb (Ascii.eqb c CR) && no_line_break s'
  end.

(** A one-parameter family of collected examples and a codec for their
    documents, used to run the framing on concrete inputs: a document is
    written as its input text, and a line is read back as the example with
    that input text; a line holding no text is malformed. *)
Definition family_example (s : string) : TrainingExample :=
  {| input_text := Some s;
     output_text := Some "polished";
     source_type := Some "blog";
     quality_score := float_one;
     metadata := JObj ∅ |}.

Fixpoint chomp (line : string) : string :=
  match line with
  | EmptyString => EmptyString
  | String c rest =>
      match rest with
      | EmptyString => if Ascii.eqb c LF then EmptyString else line
      | _ => String c (chomp rest)
      end
  end.

Definition line_codec : JsonCodec :=
  {| json_dumps := fun v =>
       match v with
       | JObj m =>
           match m !! "input_text" with
           | Some (JStr s) => s
           | _ => EmptyString
           end
       | _ => EmptyString
       end;
     json_loads := fun line =>
       match chomp line with
       | EmptyString => Raise JSONDecodeError
       | s => Ok (to_dict (family_example s))
       end |}.

Definition collector_ab : DataCollector :=
  {| conn := {| blog_posts := []; training_pairs := [] |};
     examples := [family_example "a"; family_example "b"] |}.

(** A file whose second line is blank. *)
Definition content_blank_line : string :=
  String.append "a" (String.append newline (String.append newline
    (String.append "b" newline))).

(** The train ratios of the splitter's contract: a zero, or a positive
    finite float whose value [m * 2^e] is at most one. *)
Definition unit_ratio (rho : spec_float) : bool :=
  match rho with
  | S754_zero _ => true
  | S754_finite false m e => (e <=? 0) && (Zpos m <=? 2 ^ (- e))
  | _ => false
  end.

(** The split size in the words of the specification: the floor of the
    exact product of the ratio's value [± m * 2^e] and [n]. *)
Definition exact_floor (n : Z) (rho : spec_float) : Z :=
  match rho with
  | S754_finite s m e => Z.shiftl (n * cond_Zopp s (Zpos m)) e
  | _ => 0
  end.

(** Whether the round bit or the sticky bit of a shifted mantissa is set. *)
Definition shr_flags (r : shr_record) : bool := shr_r r || shr_s r.

(** Ten formatted records, told apart by their input. *)
Definition numbered_record (i : nat) : FormattedExample :=
  {| instruction := instruction_template;
     input := JInt (Z.of_nat i);
     output := JStr "polished";
     source := JStr "blog" |}.

Definition ten_records : list FormattedExample :=
  List.map numbered_record (seq 0 10).

(** The stores of the end-to-end scenarios: three published posts with both
    texts and one whose final text is NULL; four labeled pairs with scores
    1.0, 0.5, 0.9 and 0.3. *)
Definition float_0_3 : spec_float := S754_finite false 5404319552844595 (-54).

Definition post (n : Z) (final : option string) : blog_post :=
  {| raw_transcription := Some "raw";
     final_content := final;
     title := Some "title";
     post_id := n;
     status := Some "published" |}.

Definition store_four_posts : store :=
  {| blog_posts := [post 1 (Some "final"); post 2 None;
                    post 3 (Some "final"); post 4 (Some "final")];
     training_pairs := [] |}.

Definition scored_pair (q : spec_float) : training_pair :=
  {| col_input_text := Some "raw";
     col_output_text := Some "polished";
     col_source_type := Some "writer";
     col_quality_score := Some q;
     col_metadata := None |}.

Definition store_four_scores : store :=
  {| blog_posts := [];
     training_pairs := List.map scored_pair [float_one; float_0_5; float_0_9; float_0_3] |}.

(** The binary64 value of the literal 0.29, and what it takes for a float
    with a 53-bit mantissa to be a nearest binary64 value of the fraction
    [num / den]: the two differ by at most half a unit in the last place. *)
Definition float_0_29 : spec_float := S754_finite false 5224175567749775 (-54).

Definition nearest_binary64 (num den : Z) (f : spec_float) : bool :=
  match f with
  | S754_finite false m e =>
      (Zpos (digits2_pos m) =? 53) && (e <=? 0)
      && (2 * Z.abs (den * Zpos m - num * 2 ^ (- e)) <=? den)
  | _ => false
  end.

(** The split size a reader of the command line expects: the floor of the
    product of the decimal literal [num / den] and [n]. *)
Definition literal_floor (num den n : Z) : Z := (num * n) / den.

Definition hundred_records : list FormattedExample :=
  List.map numbered_record (seq 0 100).

(** ** Reports and the full stages *)

(** The number printed by [collect_from_blog_posts] and by
    [collect_from_training_pairs] after the loop: [len(rows)], the number
    of rows the query returned. *)
Definition blog_posts_reported (c : DataCollector) : nat :=
  length (List.filter blog_posts_where (blog_posts (conn c))).

Definition training_pairs_reported (c : DataCollector) : nat :=
  length (List.filter training_pairs_where (training_pairs (conn c))).

(** The counting loop of [print_stats]:
    [source_counts[ex.source_type] = source_counts.get(ex.source_type, 0) + 1].
    The keys are the source types as stored, [None] included. *)
Fixpoint source_counts_loop (exs : list TrainingExample)
    (counts : gmap (option string) nat) : gmap (option string) nat :=
  match exs with
  | [] => counts
  | ex :: exs' =>
      source_counts_loop exs'
        (<[source_type ex := (default 0%nat (counts !! source_type ex) + 1)%nat]> counts)
  end.

Definition source_counts (c : DataCollector) : gmap (option string) nat :=
  source_counts_loop (examples c) ∅.

(** [print_stats]: the table of counts is sorted by source type and each
    source type is printed with the format [15s]; a [None] key cannot be
    compared with a text nor printed with that format. The average score
    is taken only over a non-empty collection. *)
Definition print_stats (c : DataCollector) : result unit :=
  match source_counts c !! None with
  | Some _ => Raise TypeError
  | None => Ok tt
  end.

(** What a run of the collection stage leaves behind. *)
Record collect_outcome : Type := {
  output_file : option string;
  exit_status : result unit
}.

(** [main] of the collection stage in full: after the filter the statistics
    are printed, then the collection is saved. *)
Definition collect_stage `{JsonCodec} (db : option store)
    (twitch_dir : option string) (min_quality : spec_float) : collect_outcome :=
  match collect_main db twitch_dir min_quality with
  | Raise e => {| output_file := None; exit_status := Raise e |}
  | Ok c =>
      match print_stats c with
      | Raise e => {| output_file := None; exit_status := Raise e |}
      | Ok _ => {| output_file := Some (save_to_jsonl c); exit_status := Ok tt |}
      end
  end.

(** A value has a length when it is a text, an array or an object. *)
Definition has_len (v : json) : bool :=
  match v with
  | JStr _ | JArr _ | JObj _ => true
  | _ => false
  end.

(** The formatted record of a collected example after the trip through the
    intermediate file. *)
Definition formatted_of_example (ex : TrainingExample) : FormattedExample :=
  {| instruction := instruction_template;
     input := json_of_text (input_text ex);
     output := json_of_text (output_text ex);
     source := json_of_text (source_type ex) |}.

(** The text of a file whose lines end in carriage return and line feed. *)
Fixpoint jsonl_text_crlf `{JsonCodec} (docs : list json) : string :=
  match docs with
  | [] => EmptyString
  | d :: docs' =>
      String.append (json_dumps d)
        (String CR (String LF (jsonl_text_crlf docs')))
  end.

(** Number of the examples with a given source type. *)
Definition source_count (s : option string) (exs : list TrainingExample) : nat :=
  length (List.filter (fun ex => bool_decide (source_type ex = s)) exs).

(** The sum of the counts of a table. *)
Definition counts_total (counts : gmap (option string) nat) : nat :=
  map_fold (fun _ n acc => (n + acc)%nat) 0%nat counts.

(** The examples a run of the collection stage ends with. *)
Definition collected (st : store) (tau : spec_float) : list TrainingExample :=
  List.filter (fun ex => float_ge (quality_score ex) tau)
    (List.map blog_example
       (List.filter (fun r => text_truthy (raw_transcription r)
                              && text_truthy (final_content r))
          (List.filter blog_posts_where (blog_posts st)))
     ++ List.map pair_example
          (List.filter training_pairs_where (training_pairs st))).

(** Reference inputs for runs of the two stages: the binary64 value of the
    literal 0.1, a codec for the records of [family_example] before and
    after formatting (a written record is its input text behind a digit
    that tells the two shapes apart), and a file of three records. *)
Definition float_0_1 : spec_float := S754_finite false 7205759403792794 (-56).

Definition stage_codec : JsonCodec :=
  {| json_dumps := fun v =>
       match v with
       | JObj m =>
           match m !! "input_text", m !! "input" with
           | Some (JStr s), _ => String "1" s
           | _, Some (JStr s) => String "2" s
           | _, _ => EmptyString
           end
       | _ => EmptyString
       end;
     json_loads := fun line =>
       match chomp line with
       | String c s =>
           if Ascii.eqb c "1" then Ok (to_dict (family_example s))
           else if Ascii.eqb c "2"
                then Ok (formatted_to_dict (formatted_of_example (family_example s)))
                else Raise JSONDecodeError
       | EmptyString => Raise JSONDecodeError
       end |}.

Definition content_three : string :=
  String.append "1a" (String.append newline
    (String.append "1b" (String.append newline
       (String.append "1c" newline)))).


Definition pair_null_source : training_pair :=
  {| col_input_text := Some "raw";
     col_output_text := Some "polished";
     col_source_type := None;
     col_quality_score := None;
     col_metadata := None |}.

Definition store_null_source : store :=
  {| blog_posts := []; training_pairs := [pair_null_source] |}.

(** * Properties of the collection stage *)

Section Collection.

Implicit Types (c : DataCollector) (ex : TrainingExample).

Lemma blog_posts_loop_spec (rows : list blog_post) (acc : list TrainingExample) :
  blog_posts_loop rows acc =
  acc ++ List.map blog_example
           (List.filter (fun r => text_truthy (raw_transcription r)
                                  && text_truthy (final_content r)) rows).
Proof.
  revert acc. induction rows as [|r rows IH]; intros acc; simpl.
  - by rewrite app_nil_r.
  - destruct (text_truthy (raw_transcription r) && text_truthy (final_content r)).
    + rewrite IH. simpl. by rewrite <- app_assoc.
    + apply IH.
Qed.

Lemma training_pairs_loop_spec (rows : list training_pair) (acc : list TrainingExample) :
  training_pairs_loop rows acc = acc ++ List.map pair_example rows.
Proof.
  revert acc. induction rows as [|r rows IH]; intros acc; simpl.
  - by rewrite app_nil_r.
  - rewrite IH. by rewrite <- app_assoc.
Qed.

(** The published-content path checks both texts before it emits. *)
Lemma blog_posts_texts_present c ex :
  Forall (fun e => text_truthy (input_text e) && text_truthy (output_text e) = true)
         (examples c) ->
  In ex (examples (collect_from_blog_posts c)) ->
  text_truthy (input_text ex) && text_truthy (output_text ex) = true.
Proof.
  intros Hc Hin. unfold collect_from_blog_posts in Hin. simpl in Hin.
  rewrite blog_posts_loop_spec in Hin. apply in_app_or in Hin as [Hin|Hin].
  - rewrite List.Forall_forall in Hc. by apply Hc.
  - apply in_map_iff in Hin as (r & <- & Hr).
    apply filter_In in Hr as [_ Hr]. exact Hr.
Qed.

(** Every example of either source has a non-empty output text. *)
Lemma collected_output_present (st : store) ex :
  In ex (examples (collect_from_training_pairs
                     (collect_from_blog_posts {| conn := st; examples := [] |}))) ->
  text_truthy (output_text ex) = true.
Proof.
  unfold collect_from_training_pairs. simpl.
  rewrite training_pairs_loop_spec, blog_posts_loop_spec. simpl.
  intros Hin. apply in_app_or in Hin as [Hin|Hin].
  - apply in_map_iff in Hin as (r & <- & Hr).
    apply filter_In in Hr as [_ Hr].
    apply andb_prop in Hr as [_ Hr]. exact Hr.
  - apply in_map_iff in Hin as (r & <- & Hr).
    apply filter_In in Hr as [_ Hr]. simpl.
    unfold training_pairs_where in Hr. unfold text_truthy.
    by destruct (col_output_text r).
Qed.

Lemma filter_sublist {A : Type} (p : A -> bool) (l : list A) :
  List.filter p l `sublist_of` l.
Proof.
  induction l as [|a l IH]; simpl.
  - constructor.
  - destruct (p a); by constructor.
Qed.

Lemma sublist_filter_max {A : Type} (p : A -> bool) (l k : list A) :
  k `sublist_of` l -> Forall (fun a => p a = true) k ->
  k `sublist_of` List.filter p l.
Proof.
  intros Hsub. induction Hsub as [|a k l Hsub IH|a k l Hsub IH]; intros Hall; simpl.
  - constructor.
  - inversion Hall as [|? ? Ha Hk]; subst. rewrite Ha. constructor. by apply IH.
  - destruct (p a); [constructor|]; by apply IH.
Qed.

Lemma filter_none {A : Type} (p : A -> bool) (l : list A) :
  Forall (fun a => p a = false) l -> List.filter p l = [].
Proof.
  induction 1 as [|a l Ha _ IH]; simpl; [done|]. by rewrite Ha.
Qed.

(** Comparing two floats the other way round gives the opposite answer. *)
Lemma SFcompare_antisym (x y : spec_float) :
  SFcompare y x = option_map CompOpp (SFcompare x y).
Proof.
  destruct x as [sx|sx| |sx mx ex], y as [sy|sy| |sy my ey];
    cbn [SFcompare option_map]; try reflexivity;
    try (destruct sx; reflexivity); try (destruct sy; reflexivity);
    try (destruct sx, sy; reflexivity).
  destruct sx, sy; cbn [CompOpp]; try reflexivity.
  - rewrite (Z.compare_antisym ex ey).
    destruct (ex ?= ey); cbn [CompOpp]; try reflexivity.
    rewrite (Pos.compare_cont_antisym mx my Eq). cbn [CompOpp]. reflexivity.
  - rewrite (Z.compare_antisym ex ey).
    destruct (ex ?= ey); cbn [CompOpp]; try reflexivity.
    rewrite (Pos.compare_cont_antisym mx my Eq). cbn [CompOpp].
    reflexivity.
Qed.

(** A float strictly above [x] is not below or equal to [x]. *)
Lemma float_ge_above (x tau : spec_float) :
  SFltb x tau = true -> float_ge x tau = false.
Proof.
  unfold float_ge, SFltb, SFleb. rewrite (SFcompare_antisym x tau).
  destruct (SFcompare x tau) as [[| |]|]; cbn; congruence.
Qed.

(** C5. The quality filter keeps exactly the examples whose score is at least
    the threshold: an example is kept if and only if it was collected and
    passes the test; the kept examples appear in their original relative
    order; every order-preserving selection of passing examples is contained
    in the result; and a threshold above 1.0 applied to default-scored
    examples gives the empty collection, which is an ordinary result. *)
Theorem filter_by_quality_exact (tau : spec_float) (c : DataCollector) :
  let kept := examples (filter_by_quality tau c) in
  (forall ex, In ex kept <->
              In ex (examples c) /\ float_ge (quality_score ex) tau = true)
  /\ kept `sublist_of` examples c
  /\ (forall k, k `sublist_of` examples c ->
                Forall (fun ex => float_ge (quality_score ex) tau = true) k ->
                k `sublist_of` kept)
  /\ (Forall (fun ex => float_ge (quality_score ex) tau = false) (examples c) ->
      kept = [])
  /\ (SFltb float_one tau = true ->
      Forall (fun ex => quality_score ex = float_one) (examples c) ->
      kept = []).
Proof.
  intros kept. subst kept. unfold filter_by_quality. cbn [examples].
  split; [|split; [|split; [|split]]].
  - intros ex. rewrite filter_In. reflexivity.
  - apply filter_sublist.
  - intros k Hk Hall.
    by apply (sublist_filter_max (fun ex => float_ge (quality_score ex) tau)).
  - apply (filter_none (fun ex => float_ge (quality_score ex) tau)).
  - intros Htau Hall.
    apply (filter_none (fun ex => float_ge (quality_score ex) tau)).
    eapply List.Forall_impl; [|exact Hall]. cbv beta. intros ex ->.
    by apply float_ge_above.
Qed.

(** C10. A labeled-pairs row that passes the query and whose stored score is
    falsy (NULL, [0.0] or [-0.0]) is emitted with score 1.0, and the emitted
    example survives the quality filter for every threshold that is at most
    1.0. *)
Theorem zero_score_coerced_and_kept (c : DataCollector) (r : training_pair)
    (tau : spec_float) :
  In r (training_pairs (conn c)) ->
  training_pairs_where r = true ->
  quality_falsy (col_quality_score r) = true ->
  quality_score (pair_example r) = float_one
  /\ (SFleb tau float_one = true ->
      In (pair_example r)
         (examples (filter_by_quality tau (collect_from_training_pairs c)))).
Proof.
  intros Hin Hwhere Hfalsy.
  assert (Hq : quality_score (pair_example r) = float_one).
  { cbn [pair_example quality_score]. unfold quality_or_default.
    destruct (col_quality_score r) as [f|]; [|reflexivity].
    cbn [quality_falsy] in Hfalsy. by destruct (float_truthy f). }
  split; [exact Hq|]. intros Htau.
  unfold filter_by_quality, collect_from_training_pairs. cbn [examples].
  apply filter_In. split.
  - rewrite training_pairs_loop_spec. apply in_or_app. right.
    apply in_map. apply filter_In. by split.
  - rewrite Hq. exact Htau.
Qed.

Lemma zero_score_coerced_and_kept_witness :
  quality_score (pair_example pair_zero_score) = float_one
  /\ (SFleb float_0_5 float_one = true ->
      In (pair_example pair_zero_score)
         (examples (filter_by_quality float_0_5
            (collect_from_training_pairs
               {| conn := store_zero_score; examples := [] |})))).
Proof.
  apply (zero_score_coerced_and_kept
           {| conn := store_zero_score; examples := [] |} pair_zero_score float_0_5).
  - left. reflexivity.
  - reflexivity.
  - reflexivity.
Defined.

(** C2. The labeled-pairs path emits an example for a row whose input text is
    empty and for a row whose input text is NULL: run on a store holding two
    such rows, the collection stage ends with two examples, neither of which
    has both texts present. *)
Theorem training_pairs_emit_textless_input :
  exists c,
    collect_main (Some store_textless_pairs) None float_0_5 = Ok c
    /\ List.map input_text (examples c) = [Some ""; None]
    /\ List.map texts_present (examples c) = [false; false].
Proof.
  eexists. split; [reflexivity|]. split; vm_compute; reflexivity.
Qed.

(** End-to-end scenario 1: of four published posts, the one without final
    text is left out and the other three become "blog" examples. *)
Lemma scenario_three_posts :
  exists c,
    collect_main (Some store_four_posts) None float_0_5 = Ok c
    /\ List.map source_type (examples c) = [Some "blog"; Some "blog"; Some "blog"].
Proof. eexists. split; [reflexivity|]. vm_compute. reflexivity. Qed.

(** End-to-end scenario 3: with minimum quality 0.9 the scores 1.0 and 0.9
    are kept out of 1.0, 0.5, 0.9 and 0.3. *)
Lemma scenario_min_quality :
  exists c,
    collect_main (Some store_four_scores) None float_0_9 = Ok c
    /\ List.map quality_score (examples c) = [float_one; float_0_9].
Proof. eexists. split; [reflexivity|]. vm_compute. reflexivity. Qed.

End Collection.

(** * Properties of the preparation stage *)

Section Comprehension.

Context {A B : Type} (f : A -> result B).

Lemma rmap_ok_inv (l : list A) (bs : list B) :
  rmap f l = Ok bs -> Forall2 (fun a b => f a = Ok b) l bs.
Proof.
  revert bs. induction l as [|a l IH]; intros bs; cbn [rmap].
  - intros [= <-]. constructor.
  - destruct (f a) as [b|e] eqn:Hfa; cbn [rbind]; [|discriminate].
    destruct (rmap f l) as [bs'|e] eqn:Hl; cbn [rbind]; [|discriminate].
    intros [= <-]. constructor; [exact Hfa|]. by apply IH.
Qed.

Lemma rmap_ok (l : list A) :
  (forall a, In a l -> exists b, f a = Ok b) -> exists bs, rmap f l = Ok bs.
Proof.
  induction l as [|a l IH]; intros Hall; cbn [rmap].
  - by eexists.
  - destruct (Hall a) as [b Hb]; [by left|].
    destruct IH as [bs Hbs]; [intros a' Ha'; apply Hall; by right|].
    rewrite Hb, Hbs. cbn [rbind]. by eexists.
Qed.

Lemma rmap_raise (l : list A) (a : A) (e : py_error) :
  In a l -> f a = Raise e -> exists e', rmap f l = Raise e'.
Proof.
  induction l as [|a' l IH]; intros Hin Hfa; [destruct Hin|].
  cbn [rmap]. destruct Hin as [->|Hin].
  - rewrite Hfa. cbn [rbind]. by eexists.
  - destruct (f a') as [b|e0]; cbn [rbind]; [|by eexists].
    destruct (IH Hin Hfa) as [e' ->]. cbn [rbind]. by eexists.
Qed.

Lemma Forall2_lookup_ok (P : A -> B -> Prop) (l : list A) (bs : list B) :
  Forall2 P l bs ->
  length bs = length l
  /\ forall (i : nat) (a : A), l !! i = Some a -> exists b, bs !! i = Some b /\ P a b.
Proof.
  induction 1 as [|a b l bs Hab _ [IHlen IH]]; cbn [length].
  - split; [reflexivity|]. intros i a Hi. by destruct i.
  - split; [by rewrite IHlen|]. intros [|i] a' Hi; cbn in Hi |- *.
    + injection Hi as <-. by exists b.
    + by apply IH.
Qed.

End Comprehension.

Section Formatter.

Lemma format_as_instruction_obj (m : gmap string json) (i o : json) :
  m !! "input_text" = Some i -> m !! "output_text" = Some o ->
  format_as_instruction (JObj m) =
  Ok {| instruction := instruction_template; input := i; output := o;
        source := default (JStr "unknown") (m !! "source_type") |}.
Proof.
  intros Hi Ho. unfold format_as_instruction, subscript, dict_get.
  rewrite Hi, Ho. cbn [rbind]. by destruct (m !! "source_type").
Qed.

(** C6, as stated, fails: a record whose source type is the empty string is
    formatted with the empty string as its source, not with "unknown". *)
Lemma format_empty_source_not_unknown :
  exists f,
    format_as_instruction record_empty_source = Ok f
    /\ source_type_missing_or_empty record_empty_source
    /\ source f <> JStr "unknown".
Proof.
  eexists. split; [vm_compute; reflexivity|]. split.
  - right. vm_compute. reflexivity.
  - cbn [source]. intros [=].
Qed.

(** C6, amended. For a record with both texts, the formatted record's source
    is the value stored under [source_type] whenever that key is present
    (the empty string and null included), and is "unknown" when the key is
    missing; the result depends on that record alone. *)
Theorem format_source_default (m : gmap string json) (i o : json) :
  m !! "input_text" = Some i -> m !! "output_text" = Some o ->
  exists f,
    format_as_instruction (JObj m) = Ok f
    /\ (forall v, m !! "source_type" = Some v -> source f = v)
    /\ (m !! "source_type" = None -> source f = JStr "unknown")
    /\ (source f = JStr "unknown" <->
        m !! "source_type" = None \/ m !! "source_type" = Some (JStr "unknown")).
Proof.
  intros Hi Ho. eexists. split; [by apply format_as_instruction_obj|].
  cbn [source]. destruct (m !! "source_type") as [v|]; cbv [default from_option id].
  - split; [by intros ? [= ->]|]. split; [done|]. split.
    + intros ->. by right.
    + intros [[=]|[= ->]]. reflexivity.
  - split; [done|]. split; [done|]. split; [by left|done].
Qed.

Lemma format_source_default_witness :
  exists f,
    format_as_instruction record_empty_source = Ok f
    /\ (forall v, Some (JStr "") = Some v -> source f = v)
    /\ (Some (JStr "") = None -> source f = JStr "unknown")
    /\ (source f = JStr "unknown" <->
        Some (JStr "") = None \/ Some (JStr "") = Some (JStr "unknown")).
Proof.
  exact (format_source_default
           (<["input_text" := JStr "raw"]>
            (<["output_text" := JStr "polished"]>
             (<["source_type" := JStr ""]> ∅)))
           (JStr "raw") (JStr "polished") eq_refl eq_refl).
Defined.

(** C7. Formatting a list of records that have both texts succeeds, yields
    one formatted record per input record at the same position, and the
    formatted record's input and output are the very values stored under
    [input_text] and [output_text]. *)
Theorem format_all_pointwise (examples : list json) :
  Forall has_texts examples ->
  exists formatted,
    format_all examples = Ok formatted
    /\ length formatted = length examples
    /\ forall (i : nat) (ex : json), examples !! i = Some ex ->
         exists f, formatted !! i = Some f
                   /\ subscript ex "input_text" = Ok (input f)
                   /\ subscript ex "output_text" = Ok (output f).
Proof.
  intros Hall.
  destruct (rmap_ok format_as_instruction examples) as [formatted Hf].
  { intros ex Hex. rewrite List.Forall_forall in Hall.
    destruct (Hall ex Hex) as (m & i & o & -> & Hi & Ho).
    eexists. by apply format_as_instruction_obj. }
  exists formatted. split; [exact Hf|].
  apply rmap_ok_inv in Hf.
  destruct (Forall2_lookup_ok _ _ _ Hf) as [Hlen Hlook].
  split; [exact Hlen|]. intros i ex Hi.
  destruct (Hlook i ex Hi) as (f & Hfi & Hfmt). exists f. split; [exact Hfi|].
  rewrite List.Forall_forall in Hall.
  assert (Hex : In ex examples).
  { apply list_elem_of_In. by eapply list_elem_of_lookup_2. }
  destruct (Hall ex Hex) as (m & a & b & -> & Ha & Hb).
  rewrite (format_as_instruction_obj m a b Ha Hb) in Hfmt.
  injection Hfmt as <-. cbn [input output subscript]. by rewrite Ha, Hb.
Qed.

Lemma format_all_pointwise_witness :
  exists formatted,
    format_all [record_empty_source] = Ok formatted
    /\ length formatted = length [record_empty_source]
    /\ forall (i : nat) (ex : json), [record_empty_source] !! i = Some ex ->
         exists f, formatted !! i = Some f
                   /\ subscript ex "input_text" = Ok (input f)
                   /\ subscript ex "output_text" = Ok (output f).
Proof.
  apply (format_all_pointwise [record_empty_source]).
  constructor; [|constructor].
  eexists _, (JStr "raw"), (JStr "polished").
  split; [reflexivity|]. split; vm_compute; reflexivity.
Defined.

End Formatter.

Section Framing.

Context `{codec : JsonCodec}.

Lemma append_cons (x : ascii) (a b : string) :
  String.append (String x a) b = String x (String.append a b).
Proof. reflexivity. Qed.

Lemma append_nil (b : string) : String.append EmptyString b = b.
Proof. reflexivity. Qed.

Lemma append_assoc (a b c : string) :
  String.append (String.append a b) c = String.append a (String.append b c).
Proof.
  induction a as [|x a IH]; [reflexivity|].
  rewrite !append_cons. by rewrite IH.
Qed.

(** A text without line ending followed by a line feed is handed over as one
    line, and reading goes on behind it. *)
Lemma file_lines_from_line (s rest cur : string) :
  no_line_break s = true ->
  file_lines_from (String.append s (String.append newline rest)) cur =
  String.append cur (String.append s newline) :: file_lines_from rest EmptyString.
Proof.
  revert cur. induction s as [|x s IH]; intros cur Hs.
  - rewrite !append_nil. reflexivity.
  - cbn [no_line_break] in Hs.
    apply andb_prop in Hs as [Hx Hs]. apply andb_prop in Hx as [Hlf Hcr].
    apply negb_true_iff in Hlf, Hcr.
    rewrite !append_cons. cbn [file_lines_from]. rewrite Hlf, Hcr.
    rewrite (IH _ Hs). rewrite append_assoc, append_cons, append_nil. reflexivity.
Qed.

Lemma load_jsonl_text (docs : list json) :
  (forall d, In d docs ->
     json_loads (String.append (json_dumps d) newline) = Ok d) ->
  (forall d, In d docs -> no_line_break (json_dumps d) = true) ->
  load_examples (jsonl_text docs) = Ok docs.
Proof.
  unfold load_examples, file_lines.
  induction docs as [|d docs IH]; intros Hrt Hnl; [reflexivity|].
  cbn [jsonl_text]. rewrite append_assoc.
  rewrite file_lines_from_line by (apply Hnl; by left).
  cbn [rmap]. rewrite append_nil. rewrite (Hrt d) by (by left). cbn [rbind].
  rewrite IH; [reflexivity| |]; intros d' Hd'; [apply Hrt|apply Hnl]; by right.
Qed.

(** C8. Writing a collection with the collection stage's writer and reading
    the text back line by line with the preparation stage's reader yields
    the written records, in order, provided that [json.loads] inverts
    [json.dumps] on each written record and that [json.dumps] emits no line
    ending inside a record. *)
Theorem jsonl_round_trip (c : DataCollector) :
  (forall ex, In ex (examples c) ->
     json_loads (String.append (json_dumps (to_dict ex)) newline) = Ok (to_dict ex)) ->
  (forall ex, In ex (examples c) ->
     no_line_break (json_dumps (to_dict ex)) = true) ->
  load_examples (save_to_jsonl c) = Ok (List.map to_dict (examples c)).
Proof.
  intros Hrt Hnl. unfold save_to_jsonl. apply load_jsonl_text.
  - intros d Hd. apply in_map_iff in Hd as (ex & <- & Hex). by apply Hrt.
  - intros d Hd. apply in_map_iff in Hd as (ex & <- & Hex). by apply Hnl.
Qed.

(** C9. Reading the intermediate file is all or nothing: a line on which
    [json.loads] raises makes the whole read raise, and then the stage
    writes no file; when every line parses, the read returns exactly one
    record per line, the parse of that line. *)
Theorem load_examples_all_or_nothing {G : Type} `{Rng G} (content : string) :
  (forall line e, In line (file_lines content) -> json_loads line = Raise e ->
     exists e', load_examples content = Raise e'
       /\ forall (g0 : G) seed rho,
            prepare_main g0 seed content rho = aborted e')
  /\ ((forall line, In line (file_lines content) -> exists v, json_loads line = Ok v) ->
      exists records,
        load_examples content = Ok records
        /\ length records = length (file_lines content)
        /\ Forall2 (fun line v => json_loads line = Ok v)
                   (file_lines content) records).
Proof.
  split.
  - intros line e Hin Hline.
    destruct (rmap_raise json_loads _ line e Hin Hline) as [e' He'].
    exists e'. split; [exact He'|]. intros g0 seed rho.
    unfold prepare_main. unfold load_examples in *. by rewrite He'.
  - intros Hall. destruct (rmap_ok json_loads _ Hall) as [records Hr].
    exists records. split; [exact Hr|].
    apply rmap_ok_inv in Hr. split; [|exact Hr].
    by destruct (Forall2_lookup_ok _ _ _ Hr).
Qed.

End Framing.

Lemma jsonl_round_trip_witness :
  @load_examples line_codec (@save_to_jsonl line_codec collector_ab)
  = Ok (List.map to_dict (examples collector_ab)).
Proof.
  apply (@jsonl_round_trip line_codec collector_ab).
  - intros ex [<-|[<-|[]]]; vm_compute; reflexivity.
  - intros ex [<-|[<-|[]]]; vm_compute; reflexivity.
Defined.

Lemma load_examples_all_or_nothing_witness :
  exists e', @load_examples line_codec content_blank_line = Raise e'.
Proof.
  destruct (proj1 (@load_examples_all_or_nothing line_codec Z lcg_rng content_blank_line)
              newline JSONDecodeError) as [e' [He' _]].
  - right. left. reflexivity.
  - reflexivity.
  - exists e'. exact He'.
Defined.

Section Splitter.

Context {G : Type} `{rng : Rng G}.

(** C1. Two separate runs of the stage's split on the same formatted
    collection with the same ratio and seed give the same train and
    validation sequences, whatever state the generator was in when each run
    started; the same holds for the files the whole stage writes from the
    same input text. *)
Theorem split_deterministic `{codec : JsonCodec} (g0 g0' : G) (seed : Z)
    (formatted : list FormattedExample) (content : string) (rho : spec_float) :
  prepare_split g0 seed formatted rho = prepare_split g0' seed formatted rho
  /\ prepare_main g0 seed content rho = prepare_main g0' seed content rho.
Proof.
  assert (Hs : forall l, prepare_split g0 seed l rho = prepare_split g0' seed l rho)
    by reflexivity.
  split; [apply Hs|]. unfold prepare_main.
  destruct (load_examples content) as [examples|e]; [|reflexivity].
  destruct (format_all examples) as [l|e]; [|reflexivity].
  by rewrite (Hs l).
Qed.

Section Shuffle.

Context {A : Type}.
Implicit Types (x : list A) (i j : nat) (g : G).

Lemma swap_Permutation x x' i j : swap x i j = Ok x' -> x' ≡ₚ x.
Proof.
  unfold swap. destruct (x !! j) as [xj|] eqn:Hj; [|discriminate].
  destruct (x !! i) as [xi|] eqn:Hi; [|discriminate].
  intros [= <-]. by apply Permutation_insert_swap.
Qed.

Lemma swap_ok x i j :
  (i < length x)%nat -> (j < length x)%nat -> exists x', swap x i j = Ok x'.
Proof.
  intros Hi Hj. unfold swap.
  destruct (lookup_lt_is_Some_2 x i Hi) as [xi ->].
  destruct (lookup_lt_is_Some_2 x j Hj) as [xj ->]. by eexists.
Qed.

Lemma shuffle_loop_Permutation i x x' g g' :
  shuffle_loop i x g = Ok (x', g') -> x' ≡ₚ x.
Proof.
  revert x g. induction i as [|i IH]; intros x g; cbn [shuffle_loop].
  - by intros [= <- _].
  - destruct (randbelow (S (S i)) g) as [j g1].
    destruct (swap x (S i) j) as [x1|e] eqn:Hswap; cbn [rbind]; [|discriminate].
    intros Hloop. rewrite (IH _ _ Hloop). by eapply swap_Permutation.
Qed.

Lemma shuffle_loop_ok `{!RngBelow G} i x g :
  (i = 0 \/ i < length x)%nat -> exists x' g', shuffle_loop i x g = Ok (x', g').
Proof.
  revert x g. induction i as [|i IH]; intros x g Hi; cbn [shuffle_loop].
  - by eexists _, _.
  - destruct Hi as [Hi|Hi]; [discriminate|].
    pose proof (randbelow_lt (S (S i)) g ltac:(lia)) as Hj.
    destruct (randbelow (S (S i)) g) as [j g1]. cbn [fst] in Hj.
    destruct (swap_ok x (S i) j) as [x1 Hswap]; [lia|lia|].
    rewrite Hswap. cbn [rbind]. apply IH. right.
    apply swap_Permutation, Permutation_length in Hswap. lia.
Qed.

Lemma shuffle_ok `{!RngBelow G} x g :
  exists x' g', shuffle x g = Ok (x', g') /\ x' ≡ₚ x.
Proof.
  destruct (shuffle_loop_ok (length x - 1) x g) as (x' & g' & Hs).
  { destruct x; cbn [length]; lia. }
  exists x', g'. split; [exact Hs|]. by eapply shuffle_loop_Permutation.
Qed.

End Shuffle.

(** The shuffle does not look at the elements: it acts in the same way on a
    list and on its image under a function. *)
Lemma swap_fmap {A B : Type} (f : A -> B) (x : list A) (i j : nat) :
  swap (f <$> x) i j =
  match swap x i j with Ok x' => Ok (f <$> x') | Raise e => Raise e end.
Proof.
  unfold swap. rewrite !list_lookup_fmap.
  destruct (x !! j) as [xj|]; cbn [fmap option_fmap option_map]; [|reflexivity].
  destruct (x !! i) as [xi|]; cbn [fmap option_fmap option_map]; [|reflexivity].
  by rewrite !list_fmap_insert.
Qed.

Lemma shuffle_loop_fmap {A B : Type} (f : A -> B) (i : nat) (x : list A) (g : G) :
  shuffle_loop i (f <$> x) g =
  match shuffle_loop i x g with
  | Ok (x', g') => Ok (f <$> x', g')
  | Raise e => Raise e
  end.
Proof.
  revert x g. induction i as [|i IH]; intros x g; cbn [shuffle_loop]; [reflexivity|].
  destruct (randbelow (S (S i)) g) as [j g1]. rewrite swap_fmap.
  destruct (swap x (S i) j) as [x1|e]; cbn [rbind]; [|reflexivity]. apply IH.
Qed.

Lemma shuffle_fmap {A B : Type} (f : A -> B) (x : list A) (g : G) :
  shuffle (f <$> x) g =
  match shuffle x g with
  | Ok (x', g') => Ok (f <$> x', g')
  | Raise e => Raise e
  end.
Proof. unfold shuffle. rewrite length_fmap. apply shuffle_loop_fmap. Qed.

(** The split in terms of positions: the examples are tagged with their
    position in the input, the tagged list is permuted, and the two splits
    are the two sides of a cut of the permuted list. *)
Lemma split_dataset_tagged `{!RngBelow G} {A : Type} (examples : list A)
    (rho : spec_float) (g : G) (k : Z) :
  split_index (length examples) rho = Ok k ->
  exists (tagged : list (nat * A)) (g' : G),
    tagged ≡ₚ zip (seq 0 (length examples)) examples
    /\ split_dataset examples rho g =
       Ok ((take (slice_bound k (length examples)) tagged).*2,
           (drop (slice_bound k (length examples)) tagged).*2, g').
Proof.
  intros Hk. set (tl := zip (seq 0 (length examples)) examples).
  assert (Hex : examples = tl.*2).
  { unfold tl. rewrite snd_zip; [done|]. by rewrite length_seq. }
  destruct (shuffle_ok tl g) as (t' & g' & Hsh & Hperm).
  exists t', g'. split; [exact Hperm|].
  unfold split_dataset. rewrite Hex at 1. rewrite shuffle_fmap, Hsh.
  cbn [rbind]. rewrite length_fmap.
  assert (Hlen : length t' = length examples).
  { rewrite (Permutation_length Hperm). unfold tl.
    rewrite length_zip, length_seq. lia. }
  rewrite Hlen, Hk. cbn [rbind]. by rewrite fmap_take, fmap_drop.
Qed.

End Splitter.

(** * Binary64 arithmetic of the split index *)

Section Binary64.

(** The number of binary digits of a positive number brackets it between
    two powers of two. *)
Lemma digits2_pos_bounds (p : positive) :
  2 ^ (Zpos (digits2_pos p) - 1) <= Zpos p < 2 ^ Zpos (digits2_pos p).
Proof.
  induction p as [p IH|p IH|]; cbn [digits2_pos].
  - rewrite Pos2Z.inj_succ.
    replace (Z.succ (Zpos (digits2_pos p)) - 1) with (Z.succ (Zpos (digits2_pos p) - 1)) by lia.
    rewrite !Z.pow_succ_r by lia. lia.
  - rewrite Pos2Z.inj_succ.
    replace (Z.succ (Zpos (digits2_pos p)) - 1) with (Z.succ (Zpos (digits2_pos p) - 1)) by lia.
    rewrite !Z.pow_succ_r by lia. lia.
  - cbn. lia.
Qed.

Lemma digits2_pos_le (p : positive) (k : Z) :
  0 <= k -> Zpos p < 2 ^ k -> Zpos (digits2_pos p) <= k.
Proof.
  intros Hk Hp. destruct (Z_le_gt_dec (Zpos (digits2_pos p)) k) as [|Hgt]; [assumption|].
  pose proof (digits2_pos_bounds p) as [Hlo _].
  assert (2 ^ k <= 2 ^ (Zpos (digits2_pos p) - 1)) by (apply Z.pow_le_mono_r; lia).
  lia.
Qed.

(** Iterating by a binary positive is iterating that many times. *)
Lemma iter_pos_nat {A : Type} (f : A -> A) (p : positive) (x : A) :
  SpecFloat.iter_pos f p x = Nat.iter (Pos.to_nat p) f x.
Proof.
  revert x. induction p as [p IH|p IH|]; intros x; cbn [SpecFloat.iter_pos].
  - rewrite !IH, Pos2Nat.inj_xI. 
    replace (S (2 * Pos.to_nat p)) with (Pos.to_nat p + (Pos.to_nat p + 1))%nat by lia.
    rewrite !Nat.iter_add. reflexivity.
  - rewrite !IH, Pos2Nat.inj_xO.
    replace (2 * Pos.to_nat p)%nat with (Pos.to_nat p + Pos.to_nat p)%nat by lia.
    rewrite Nat.iter_add. reflexivity.
  - reflexivity.
Qed.

(** One right shift halves the mantissa; a flag raised by it was raised
    before or comes from an odd mantissa. *)
Lemma shr_1_spec (r : shr_record) :
  0 <= shr_m r ->
  shr_m (shr_1 r) = shr_m r / 2
  /\ (shr_flags (shr_1 r) = true -> shr_flags r = true \/ ~ (2 | shr_m r)).
Proof.
  destruct r as [m b s]. unfold shr_flags. cbn [shr_m shr_r shr_s shr_1]. intros Hm.
  destruct m as [|[p|p|]|p]; cbn [shr_m shr_r shr_s]; try lia.
  - split; [reflexivity|]. cbn. intros H. left. rewrite H. reflexivity.
  - split; [rewrite Pos2Z.inj_xI; apply Z.div_unique with 1; lia|].
    intros _. right. intros [q Hq]. lia.
  - split; [rewrite Pos2Z.inj_xO; apply Z.div_unique with 0; lia|].
    cbn. intros H. left. exact H.
  - split; [reflexivity|]. intros _. right. intros [q Hq]. lia.
Qed.

Lemma shr_iter_spec (k : nat) (r : shr_record) :
  0 <= shr_m r ->
  shr_m (Nat.iter k shr_1 r) = shr_m r / 2 ^ Z.of_nat k
  /\ (shr_flags (Nat.iter k shr_1 r) = true ->
      shr_flags r = true \/ ~ (2 ^ Z.of_nat k | shr_m r)).
Proof.
  intros Hm. induction k as [|k [IHm IHf]].
  - cbn [Nat.iter]. rewrite Z.pow_0_r, Z.div_1_r. split; [reflexivity|]. intros H; left; exact H.
  - change (Nat.iter (S k) shr_1 r) with (shr_1 (Nat.iter k shr_1 r)).
    assert (Hk : 0 <= shr_m (Nat.iter k shr_1 r)).
    { rewrite IHm. apply Z.div_pos; [lia|]. apply Z.pow_pos_nonneg; lia. }
    destruct (shr_1_spec _ Hk) as [H1m H1f].
    rewrite Nat2Z.inj_succ, Z.pow_succ_r by lia.
    split.
    + rewrite H1m, IHm. rewrite Z.div_div by (try apply Z.pow_pos_nonneg; lia).
      f_equal. lia.
    + intros H. destruct (H1f H) as [H'|H'].
      * destruct (IHf H') as [?|Hnd]; [left; assumption|right].
        intros [q Hq]. apply Hnd. exists (2 * q). lia.
      * right. intros [q Hq]. apply H'. rewrite IHm. exists q.
        rewrite Hq. replace (q * (2 * 2 ^ Z.of_nat k)) with ((q * 2) * 2 ^ Z.of_nat k) by lia.
        apply Z.div_mul. apply Z.pow_nonzero; lia.
Qed.

Lemma fexp64_eq (x : Z) : fexp 53 1024 x = Z.max (x - 53) (-1074).
Proof. reflexivity. Qed.

(** A right shift by [n] places of an exact mantissa [m] leaves [m / 2^n];
    the flags are raised only if [2^n] does not divide [m]. *)
Lemma shr_spec (m e n : Z) :
  0 <= m ->
  exists r',
    shr {| shr_m := m; shr_r := false; shr_s := false |} e n = (r', e + Z.max 0 n)
    /\ shr_m r' = m / 2 ^ Z.max 0 n
    /\ (shr_flags r' = true -> ~ (2 ^ Z.max 0 n | m)).
Proof.
  intros Hm. destruct n as [|p|p]; cbn [shr].
  - eexists. split; [f_equal; cbn; lia|]. cbn [shr_m Z.max Z.compare]. 
    rewrite Z.pow_0_r, Z.div_1_r. split; [reflexivity|]. cbn. discriminate.
  - eexists. split; [f_equal; lia|].
    rewrite iter_pos_nat.
    destruct (shr_iter_spec (Pos.to_nat p) {| shr_m := m; shr_r := false; shr_s := false |} Hm)
      as [H1 H2].
    rewrite positive_nat_Z in H1, H2. cbn [shr_m] in H1, H2.
    replace (Z.max 0 (Z.pos p)) with (Z.pos p) by lia.
    split; [exact H1|]. intros H. destruct (H2 H) as [H'|H']; [discriminate H'|exact H'].
  - eexists. split; [f_equal; cbn; lia|]. cbn [shr_m].
    replace (Z.max 0 (Z.neg p)) with 0 by lia.
    rewrite Z.pow_0_r, Z.div_1_r. split; [reflexivity|]. cbn. discriminate.
Qed.

(** Rounding to nearest keeps the shifted mantissa or adds one, and adds one
    only when a flag is raised. *)
Lemma round_nearest_even_spec (r : shr_record) :
  round_nearest_even (shr_m r) (loc_of_shr_record r) = shr_m r
  \/ (round_nearest_even (shr_m r) (loc_of_shr_record r) = shr_m r + 1
      /\ shr_flags r = true).
Proof.
  destruct r as [m [|] [|]]; unfold shr_flags;
    cbn [shr_m shr_r shr_s loc_of_shr_record round_nearest_even orb].
  - right. split; reflexivity.
  - destruct (Z.even m); [left|right]; [reflexivity|split; reflexivity].
  - left. reflexivity.
  - left. reflexivity.
Qed.

Lemma Zdigits2_le (m k : Z) : 0 <= m -> 0 <= k -> m < 2 ^ k -> Zdigits2 m <= k.
Proof.
  intros Hm Hk Hlt. destruct m as [|p|p]; cbn [Zdigits2]; [lia| |lia].
  by apply digits2_pos_le.
Qed.

(** The heart of the index computation. A non-negative value [m * 2^e] that
    is at most an integer [B < 2^53] rounds to a float that truncates to the
    floor of the value or to one more, and to at most [B]. *)
Lemma round_aux_trunc (m : positive) (e B : Z) :
  e <= 0 -> 0 <= B < 2 ^ 53 -> Zpos m <= B * 2 ^ (- e) ->
  exists k,
    int_of_float (binary_round_aux 53 1024 false (Zpos m) e loc_Exact) = Ok k
    /\ Zpos m / 2 ^ (- e) <= k <= Zpos m / 2 ^ (- e) + 1
    /\ k <= B.
Proof.
  intros He HB Hm.
  assert (Hpow : forall a, 0 <= a -> 0 < 2 ^ a) by (intros; apply Z.pow_pos_nonneg; lia).
  unfold binary_round_aux, shr_fexp.
  cbn [shr_record_of_loc].
  set (n1 := fexp 53 1024 (Zdigits2 (Zpos m) + e) - e).
  destruct (shr_spec (Zpos m) e n1 ltac:(lia)) as (r1 & -> & Hm1 & Hf1).
  set (e1 := e + Z.max 0 n1) in *.
  set (m' := round_nearest_even (shr_m r1) (loc_of_shr_record r1)).
  (* the first exponent is not positive *)
  assert (Hd : Zdigits2 (Zpos m) + e <= 53).
  { assert (Zdigits2 (Zpos m) <= 53 - e); [|lia].
    apply Zdigits2_le; [lia|lia|].
    replace (53 - e) with (53 + - e) by lia. rewrite Z.pow_add_r by lia.
    pose proof (Hpow (- e) ltac:(lia)). nia. }
  assert (He1 : e1 <= 0).
  { unfold e1, n1. rewrite fexp64_eq. lia. }
  assert (Hn1 : 0 <= Z.max 0 n1) by lia.
  set (D := 2 ^ (- e1)).
  assert (HD : 0 < D) by (apply Hpow; lia).
  assert (HeD : 2 ^ (- e) = 2 ^ Z.max 0 n1 * D).
  { unfold D. rewrite <- Z.pow_add_r by lia. f_equal. unfold e1. lia. }
  pose proof (Hpow _ Hn1) as Hp1.
  assert (Hm1pos : 0 <= shr_m r1).
  { rewrite Hm1. apply Z.div_pos; lia. }
  (* the rounded mantissa *)
  assert (Hm' : shr_m r1 <= m' <= shr_m r1 + 1 /\ m' <= B * D).
  { destruct (round_nearest_even_spec r1) as [Hr|[Hr Hfl]]; fold m' in Hr; rewrite Hr.
    - split; [lia|]. rewrite Hm1. apply Z.div_le_upper_bound; [lia|].
      rewrite HeD in Hm. lia.
    - split; [lia|]. specialize (Hf1 Hfl).
      assert (Z.pos m <> 2 ^ Z.max 0 n1 * (B * D)).
      { intros Heq. apply Hf1. exists (B * D). lia. }
      assert (Z.pos m / 2 ^ Z.max 0 n1 < B * D); [|lia].
      apply Z.div_lt_upper_bound; [lia|]. rewrite HeD in Hm. lia. }
  destruct Hm' as [Hm'1 Hm'2].
  set (n2 := fexp 53 1024 (Zdigits2 m' + e1) - e1).
  destruct (shr_spec m' e1 n2 ltac:(lia)) as (r2 & -> & Hm2 & _).
  set (e2 := e1 + Z.max 0 n2) in *.
  assert (Hd' : Zdigits2 m' + e1 <= 53).
  { assert (Zdigits2 m' <= 53 - e1); [|lia].
    apply Zdigits2_le; [lia|lia|].
    replace (53 - e1) with (53 + - e1) by lia. rewrite Z.pow_add_r by lia.
    fold D. nia. }
  assert (He2 : e2 <= 0).
  { unfold e2, n2. rewrite fexp64_eq. lia. }
  assert (Hn2 : 0 <= Z.max 0 n2) by lia.
  pose proof (Hpow _ Hn2) as Hp2.
  assert (HD2 : D = 2 ^ Z.max 0 n2 * 2 ^ (- e2)).
  { unfold D. rewrite <- Z.pow_add_r by lia. f_equal. unfold e2. lia. }
  pose proof (Hpow (- e2) ltac:(lia)) as Hp3.
  (* the result truncates to [m' / D] *)
  exists (m' / D).
  split; [|split].
  - destruct (shr_m r2) as [|q|q] eqn:Hq.
    + cbn [int_of_float]. f_equal. symmetry.
      rewrite HD2, <- Z.div_div, <- Hm2 by lia. reflexivity.
    + replace (e2 <=? 1024 - 53) with true by (symmetry; apply Z.leb_le; lia).
      cbn [int_of_float cond_Zopp]. f_equal.
      replace e2 with (- - e2) by lia. rewrite Z.shiftl_opp_r.
      rewrite Z.shiftr_div_pow2 by lia.
      rewrite HD2, <- Z.div_div, <- Hm2 by lia. reflexivity.
    + exfalso. pose proof (Z.div_pos m' (2 ^ Z.max 0 n2)). lia.
  - rewrite HeD, <- Z.div_div, <- Hm1 by lia. split.
    + apply Z.div_le_mono; lia.
    + transitivity ((shr_m r1 + 1 * D) / D).
      * apply Z.div_le_mono; lia.
      * rewrite Z.div_add by lia. lia.
  - apply Z.div_le_upper_bound; lia.
Qed.

Lemma pos_iter_xO (p d : positive) :
  Zpos (Pos.iter xO p d) = Zpos p * 2 ^ Zpos d.
Proof.
  induction d as [|d IH] using Pos.peano_ind.
  - cbn [Pos.iter]. rewrite Pos2Z.inj_xO, Z.pow_1_r. lia.
  - rewrite Pos.iter_succ, Pos2Z.inj_xO, IH, Pos2Z.inj_succ, Z.pow_succ_r by lia. lia.
Qed.

(** A mantissa that already fits is kept as it is. *)
Lemma round_aux_noshift (s : bool) (m : positive) (e : Z) :
  fexp 53 1024 (Zpos (digits2_pos m) + e) <= e -> e <= 971 ->
  binary_round_aux 53 1024 s (Zpos m) e loc_Exact = S754_finite s m e.
Proof.
  intros Hf He. unfold binary_round_aux, shr_fexp. cbn [Zdigits2 shr_record_of_loc].
  assert (Hshr : shr {| shr_m := Zpos m; shr_r := false; shr_s := false |} e
                   (fexp 53 1024 (Zpos (digits2_pos m) + e) - e)
                 = ({| shr_m := Zpos m; shr_r := false; shr_s := false |}, e)).
  { destruct (fexp 53 1024 (Zpos (digits2_pos m) + e) - e) eqn:Hn; [reflexivity|lia|reflexivity]. }
  rewrite Hshr. cbn [shr_m loc_of_shr_record round_nearest_even Zdigits2 shr_record_of_loc].
  rewrite Hshr. cbn [shr_m].
  replace (e <=? 1024 - 53) with true by (symmetry; apply Z.leb_le; lia).
  reflexivity.
Qed.

(** A positive integer below [2^53] converts to a float of exactly its
    value. *)
Lemma float_of_int_pos (z : Z) :
  0 < z < 2 ^ 53 ->
  exists m e, float_of_int z = Ok (S754_finite false m e)
              /\ e <= 0 /\ Zpos m = z * 2 ^ (- e).
Proof.
  intros [Hz0 Hz]. destruct z as [|p|p]; [lia| |lia].
  unfold float_of_int, prec64, emax64. cbn [binary_normalize]. unfold binary_round.
  pose proof (digits2_pos_bounds p) as [Hlo Hhi].
  pose proof (digits2_pos_le p 53 ltac:(lia) Hz) as Hd.
  set (d := Zpos (digits2_pos p)) in *.
  assert (Hfexp : fexp 53 1024 (d + 0) = d - 53) by (rewrite fexp64_eq; lia).
  rewrite Hfexp. unfold shl_align.
  destruct (d - 53 - 0) as [|q|q] eqn:Hq; [|lia|].
  - (* already 53 digits *)
    rewrite round_aux_noshift by (fold d; try rewrite fexp64_eq; lia).
    exists p, 0. split; [reflexivity|]. split; [lia|]. cbn. lia.
  - assert (Hmz : Zpos (Pos.iter xO p q) = Zpos p * 2 ^ (53 - d)).
    { rewrite pos_iter_xO. f_equal. f_equal. lia. }
    assert (Hdz : Zpos (digits2_pos (Pos.iter xO p q)) <= 53).
    { apply digits2_pos_le; [lia|]. rewrite Hmz.
      replace 53 with (d + (53 - d)) at 2 by lia. rewrite Z.pow_add_r by lia.
      assert (0 < 2 ^ (53 - d)) by (apply Z.pow_pos_nonneg; lia). nia. }
    rewrite round_aux_noshift by (try rewrite fexp64_eq; lia).
    exists (Pos.iter xO p q), (d - 53). split; [reflexivity|]. split; [lia|].
    rewrite Hmz. f_equal. f_equal. lia.
Qed.

(** For a ratio in the unit interval and fewer than [2^53] examples the index
    computation returns, its result is the exact floor or one more, and it
    lies within the list. *)
Lemma split_index_unit (n : nat) (rho : spec_float) :
  Z.of_nat n < 2 ^ 53 -> unit_ratio rho = true ->
  exists k, split_index n rho = Ok k
            /\ exact_floor (Z.of_nat n) rho <= k <= exact_floor (Z.of_nat n) rho + 1
            /\ 0 <= k <= Z.of_nat n.
Proof.
  intros Hn Hrho. unfold split_index.
  destruct (Z.eq_dec (Z.of_nat n) 0) as [H0|H0].
  - rewrite H0. exists 0. 
    destruct rho as [s|s| |[|] m e]; try discriminate Hrho; cbn [exact_floor].
    + split; [reflexivity|]. lia.
    + split; [reflexivity|]. rewrite Z.mul_0_l, Z.shiftl_0_l. lia.
  - destruct (float_of_int_pos (Z.of_nat n) ltac:(lia)) as (mz & ez & -> & Hez & Hmz).
    cbn [rbind]. destruct rho as [s|s| |[|] m e]; try discriminate Hrho.
    + exists 0. split; [reflexivity|]. cbn [exact_floor]. lia.
    + cbn [unit_ratio] in Hrho. apply andb_prop in Hrho as [He Hm].
      apply Z.leb_le in He, Hm.
      unfold float_mul, prec64, emax64. cbn [SFmul xorb].
      assert (Hpe : 0 < 2 ^ (- e)) by (apply Z.pow_pos_nonneg; lia).
      assert (Hpz : 0 < 2 ^ (- ez)) by (apply Z.pow_pos_nonneg; lia).
      assert (Hpow : 2 ^ (- (ez + e)) = 2 ^ (- ez) * 2 ^ (- e)).
      { rewrite <- Z.pow_add_r by lia. f_equal. lia. }
      destruct (round_aux_trunc (mz * m) (ez + e) (Z.of_nat n)) as (k & Hk & Hfl & Hub).
      { lia. } { lia. }
      { rewrite Pos2Z.inj_mul, Hmz, Hpow. nia. }
      exists k. split; [exact Hk|].
      assert (HF : Z.pos (mz * m) / 2 ^ (- (ez + e))
                   = exact_floor (Z.of_nat n) (S754_finite false m e)).
      { cbn [exact_floor cond_Zopp]. replace e with (- - e) at 2 by lia.
        rewrite Z.shiftl_opp_r, Z.shiftr_div_pow2 by lia.
        rewrite Pos2Z.inj_mul, Hmz, Hpow.
        replace (Z.of_nat n * 2 ^ (- ez) * Z.pos m)
          with (2 ^ (- ez) * (Z.of_nat n * Z.pos m)) by lia.
        apply Z.div_mul_cancel_l; lia. }
      rewrite <- HF. split; [exact Hfl|]. split; [|exact Hub].
      assert (0 <= Z.pos (mz * m) / 2 ^ (- (ez + e))); [|lia].
      apply Z.div_pos; [lia|]. rewrite Hpow. nia.
Qed.

End Binary64.

(** * Completeness and sizes of the split *)

Lemma split_index_zero (n : nat) (s : bool) :
  Z.of_nat n < 2 ^ 53 -> split_index n (S754_zero s) = Ok 0.
Proof.
  intros Hn. unfold split_index.
  destruct (Z.eq_dec (Z.of_nat n) 0) as [H0|H0].
  - rewrite H0. reflexivity.
  - destruct (float_of_int_pos (Z.of_nat n) ltac:(lia)) as (mz & ez & -> & _).
    reflexivity.
Qed.

Lemma exact_floor_one (n : Z) : exact_floor n float_one = n.
Proof.
  unfold exact_floor, float_one. cbn [cond_Zopp].
  change (-52) with (- (52)). rewrite Z.shiftl_opp_r, Z.shiftr_div_pow2 by lia.
  change 4503599627370496 with (2 ^ 52). apply Z.div_mul. lia.
Qed.

Lemma slice_bound_in_range (k : Z) (n : nat) :
  0 <= k <= Z.of_nat n -> Z.of_nat (slice_bound k n) = k.
Proof.
  intros Hk. unfold slice_bound.
  destruct (Z.ltb_spec k 0) as [?|_]; [lia|]. lia.
Qed.

(** The generator of the reference runs honours the contract of
    [_randbelow]. *)
Lemma lcg_below : RngBelow Z.
Proof.
  intros n g Hn. cbn [randbelow lcg_rng fst].
  pose proof (Z.mod_pos_bound (lcg_next g) (Z.of_nat n) ltac:(lia)). lia.
Qed.

Section Split.

Context {G : Type} `{rng : Rng G} {below : RngBelow G}.

Lemma zip_seq_lookup {A : Type} (l : list A) :
  Forall (fun p => l !! p.1 = Some p.2) (zip (seq 0 (length l)) l).
Proof.
  apply Forall_forall. intros [i a] Hin.
  apply list_elem_of_lookup in Hin as [j Hj].
  apply lookup_zip_Some in Hj as [Hi Ha]. cbn [fst snd].
  apply lookup_seq in Hi as [-> _]. exact Ha.
Qed.

Lemma Forall_fst_snd {A : Type} (l : list A) (t : list (nat * A)) :
  Forall (fun p => l !! p.1 = Some p.2) t ->
  Forall2 (fun i a => l !! i = Some a) t.*1 t.*2.
Proof. induction 1; cbn; constructor; assumption. Qed.

(** Whenever the index computation returns, for any ratio (also one that is
    negative or above one, where the slices clamp), the two splits cut a
    permutation of the tagged input in two. *)
Lemma split_partition (g0 : G) (seed : Z) (formatted : list FormattedExample)
    (rho : spec_float) (k : Z) :
  split_index (length formatted) rho = Ok k ->
  exists train val,
    prepare_split g0 seed formatted rho = Ok (train, val)
    /\ (length train + length val = length formatted)%nat
    /\ train ++ val ≡ₚ formatted
    /\ (exists ti vi : list nat,
          Forall2 (fun i f => formatted !! i = Some f) ti train
          /\ Forall2 (fun i f => formatted !! i = Some f) vi val
          /\ ti ++ vi ≡ₚ seq 0 (length formatted)
          /\ forall i, i ∈ ti -> i ∉ vi)
    /\ (NoDup formatted -> forall f, f ∈ train -> f ∉ val).
Proof.
  intros Hk.
  destruct (split_dataset_tagged formatted rho (rng_seed seed) k Hk)
    as (tagged & g' & Hperm & Hsplit).
  set (b := slice_bound k (length formatted)) in *.
  exists (take b tagged).*2, (drop b tagged).*2.
  assert (Hcat : (take b tagged).*2 ++ (drop b tagged).*2 ≡ₚ formatted).
  { rewrite <- fmap_app, take_drop, Hperm. rewrite snd_zip; [done|].
    by rewrite length_seq. }
  split; [|split; [|split; [|split]]].
  - unfold prepare_split. rewrite Hsplit. reflexivity.
  - rewrite <- length_app. by apply Permutation_length.
  - exact Hcat.
  - exists (take b tagged).*1, (drop b tagged).*1.
    assert (Hall : Forall (fun p => formatted !! p.1 = Some p.2) tagged).
    { rewrite Hperm. apply zip_seq_lookup. }
    assert (Hidx : (take b tagged).*1 ++ (drop b tagged).*1
                   ≡ₚ seq 0 (length formatted)).
    { rewrite <- fmap_app, take_drop, Hperm. rewrite fst_zip; [done|].
      by rewrite length_seq. }
    split; [apply Forall_fst_snd; by apply Forall_take|].
    split; [apply Forall_fst_snd; by apply Forall_drop|].
    split; [exact Hidx|].
    assert (Hnd : NoDup ((take b tagged).*1 ++ (drop b tagged).*1)).
    { rewrite Hidx. apply NoDup_seq. }
    apply NoDup_app in Hnd as (_ & Hdisj & _). exact Hdisj.
  - intros Hnd. rewrite <- Hcat in Hnd.
    apply NoDup_app in Hnd as (_ & Hdisj & _). exact Hdisj.
Qed.

(** A ratio that is not a number makes the split raise: no sequences are
    produced. *)
Lemma split_nan_raises (g0 : G) (seed : Z) (formatted : list FormattedExample) :
  Z.of_nat (length formatted) < 2 ^ 53 ->
  prepare_split g0 seed formatted S754_nan = Raise ValueError.
Proof.
  intros Hn. unfold prepare_split, split_dataset.
  destruct (shuffle_ok formatted (rng_seed seed)) as (x & g' & -> & Hperm).
  cbn [rbind]. rewrite (Permutation_length Hperm). unfold split_index.
  destruct (Z.eq_dec (Z.of_nat (length formatted)) 0) as [H0|H0].
  - rewrite H0. reflexivity.
  - destruct (float_of_int_pos (Z.of_nat (length formatted)) ltac:(lia))
      as (mz & ez & -> & _). reflexivity.
Qed.

(** C3. For a collection of fewer than 2^53 formatted examples and a train
    ratio in the unit interval, the split returns two sequences whose
    lengths add up to the length of the input, whose concatenation is a
    permutation of the input, and which are disjoint: they are the images of
    two lists of input positions that share no position and together hold
    every position once; when the input has no duplicate record, no record
    occurs on both sides. *)
Theorem split_complete (g0 : G) (seed : Z) (formatted : list FormattedExample)
    (rho : spec_float) :
  Z.of_nat (length formatted) < 2 ^ 53 ->
  unit_ratio rho = true ->
  exists train val,
    prepare_split g0 seed formatted rho = Ok (train, val)
    /\ (length train + length val = length formatted)%nat
    /\ train ++ val ≡ₚ formatted
    /\ (exists ti vi : list nat,
          Forall2 (fun i f => formatted !! i = Some f) ti train
          /\ Forall2 (fun i f => formatted !! i = Some f) vi val
          /\ ti ++ vi ≡ₚ seq 0 (length formatted)
          /\ forall i, i ∈ ti -> i ∉ vi)
    /\ (NoDup formatted -> forall f, f ∈ train -> f ∉ val).
Proof.
  intros Hn Hrho.
  destruct (split_index_unit _ _ Hn Hrho) as (k & Hk & _ & _).
  by apply (split_partition g0 seed formatted rho k).
Qed.

(** C4, amended. For a collection of [N < 2^53] formatted examples and a
    train ratio in the unit interval the split returns, and the train split
    has exactly [k] elements and the validation split [N - k], where [k] is
    the binary64 product of [N] and the ratio truncated to an integer; [k]
    is the exact floor of the product or one more, and at most [N]. With
    ten examples and ratio 0.9 the sizes are 9 and 1; with no example both
    splits are empty; with ratio 1.0 the validation split is empty; with
    ratio 0.0 the train split is empty. *)
Theorem split_sizes (g0 : G) (seed : Z) (formatted : list FormattedExample)
    (rho : spec_float) :
  Z.of_nat (length formatted) < 2 ^ 53 ->
  unit_ratio rho = true ->
  exists train val k,
    prepare_split g0 seed formatted rho = Ok (train, val)
    /\ split_index (length formatted) rho = Ok k
    /\ Z.of_nat (length train) = k
    /\ Z.of_nat (length val) = Z.of_nat (length formatted) - k
    /\ exact_floor (Z.of_nat (length formatted)) rho <= k
       <= exact_floor (Z.of_nat (length formatted)) rho + 1
    /\ k <= Z.of_nat (length formatted)
    /\ (length formatted = 10%nat -> rho = float_0_9 ->
        length train = 9%nat /\ length val = 1%nat)
    /\ (length formatted = 0%nat -> train = [] /\ val = [])
    /\ (rho = float_one -> val = [])
    /\ (float_truthy rho = false -> train = []).
Proof.
  intros Hn Hrho.
  destruct (split_index_unit _ _ Hn Hrho) as (k & Hk & Hfloor & Hrange).
  destruct (split_dataset_tagged formatted rho (rng_seed seed) k Hk)
    as (tagged & g' & Hperm & Hsplit).
  assert (Hlen : length tagged = length formatted).
  { rewrite (Permutation_length Hperm), length_zip, length_seq. lia. }
  pose proof (slice_bound_in_range k (length formatted) Hrange) as Hb.
  set (b := slice_bound k (length formatted)) in *.
  assert (Htrain : Z.of_nat (length (take b tagged).*2) = k).
  { rewrite length_fmap, length_take, Hlen. lia. }
  assert (Hval : Z.of_nat (length (drop b tagged).*2)
                 = Z.of_nat (length formatted) - k).
  { rewrite length_fmap, length_drop, Hlen. lia. }
  exists (take b tagged).*2, (drop b tagged).*2, k.
  split; [unfold prepare_split; rewrite Hsplit; reflexivity|].
  split; [exact Hk|]. split; [exact Htrain|]. split; [exact Hval|].
  split; [exact Hfloor|]. split; [lia|].
  split; [|split; [|split]].
  - intros H10 ->. rewrite H10 in Hk, Hval.
    assert (Hk9 : split_index 10 float_0_9 = Ok 9) by (vm_compute; reflexivity).
    rewrite Hk9 in Hk. injection Hk as <-. lia.
  - intros H0. rewrite H0 in *.
    split; apply length_zero_iff_nil; lia.
  - intros ->. rewrite exact_floor_one in Hfloor.
    apply length_zero_iff_nil. lia.
  - intros Hz. destruct rho as [s| | |]; try discriminate Hz.
    rewrite (split_index_zero _ s Hn) in Hk. injection Hk as <-.
    apply length_zero_iff_nil. lia.
Qed.

End Split.

(** The statistics report of the stage raises on an empty split; by then
    both files are written. *)
Lemma calc_stats_empty : calc_stats [] = Raise ZeroDivisionError.
Proof. reflexivity. Qed.

(** Without the seeding, the split depends on the state of the generator. *)
Lemma split_depends_on_state :
  split_dataset (G := Z) (seq 0 10) float_0_9 1
  <> split_dataset (G := Z) (seq 0 10) float_0_9 2.
Proof. vm_compute. discriminate. Qed.

(** C4, as stated, fails, whether the ratio is read as the binary64 value the
    splitter receives or as the decimal literal given on the command line.
    With ten examples and the ratio 0.7, whose binary64 value lies below
    seven tenths, the train split has seven elements, while the floor of the
    exact product is six. With a hundred examples and the ratio 0.29 the
    train split has 28 elements, while the floor of 0.29 * 100 is 29. *)
Lemma split_size_not_exact_floor :
  (exists train val,
     prepare_split (G := Z) 0 42 ten_records float_0_7 = Ok (train, val)
     /\ unit_ratio float_0_7 = true
     /\ length train = 7%nat
     /\ exact_floor (Z.of_nat (length ten_records)) float_0_7 = 6
     /\ Z.of_nat (length train)
        <> exact_floor (Z.of_nat (length ten_records)) float_0_7)
  /\ (exists train val,
        prepare_split (G := Z) 0 42 hundred_records float_0_29 = Ok (train, val)
        /\ nearest_binary64 29 100 float_0_29 = true
        /\ length train = 28%nat
        /\ literal_floor 29 100 (Z.of_nat (length hundred_records)) = 29
        /\ Z.of_nat (length train)
           <> literal_floor 29 100 (Z.of_nat (length hundred_records))).
Proof.
  split.
  - eexists _, _. split; [vm_compute; reflexivity|].
    split; [vm_compute; reflexivity|]. split; [reflexivity|].
    split; [vm_compute; reflexivity|]. vm_compute. discriminate.
  - eexists _, _. split; [vm_compute; reflexivity|].
    split; [vm_compute; reflexivity|]. split; [reflexivity|].
    split; [vm_compute; reflexivity|]. vm_compute. discriminate.
Qed.

Lemma split_complete_witness :
  exists train val,
    prepare_split (G := Z) 0 42 ten_records float_0_9 = Ok (train, val)
    /\ (length train + length val = length ten_records)%nat
    /\ train ++ val ≡ₚ ten_records.
Proof.
  destruct (split_complete (below := lcg_below) 0 42 ten_records float_0_9)
    as (train & val & Hs & Hl & Hp & _).
  - vm_compute. reflexivity.
  - vm_compute. reflexivity.
  - exists train, val. split; [exact Hs|]. split; [exact Hl|exact Hp].
Defined.

Lemma split_sizes_witness :
  exists train val,
    prepare_split (G := Z) 0 42 ten_records float_0_9 = Ok (train, val)
    /\ length train = 9%nat /\ length val = 1%nat.
Proof.
  destruct (split_sizes (below := lcg_below) 0 42 ten_records float_0_9)
    as (train & val & k & Hs & _ & _ & _ & _ & _ & H10 & _).
  - vm_compute. reflexivity.
  - vm_compute. reflexivity.
  - exists train, val. split; [exact Hs|]. apply H10; reflexivity.
Defined.

(** * Further properties of the collection stage *)

Section CollectionReports.

Implicit Types (c : DataCollector) (ex : TrainingExample).

Lemma filter_length_split {A : Type} (p : A -> bool) (l : list A) :
  (length (List.filter p l) + length (List.filter (fun a => negb (p a)) l)
   = length l)%nat.
Proof.
  induction l as [|a l IH]; [reflexivity|]. cbn [List.filter].
  destruct (p a); cbn [negb length]; lia.
Qed.

Lemma collect_main_examples (st : store) (twitch_dir : option string)
    (tau : spec_float) :
  exists c,
    collect_main (Some st) twitch_dir tau = Ok c
    /\ examples c =
       List.filter (fun ex => float_ge (quality_score ex) tau)
         (List.map blog_example
            (List.filter (fun r => text_truthy (raw_transcription r)
                                   && text_truthy (final_content r))
               (List.filter blog_posts_where (blog_posts st)))
          ++ List.map pair_example
               (List.filter training_pairs_where (training_pairs st))).
Proof.
  unfold collect_main.
  set (c := collect_from_training_pairs
              (collect_from_blog_posts {| conn := st; examples := [] |})).
  assert (Hc : examples c =
               List.map blog_example
                 (List.filter (fun r => text_truthy (raw_transcription r)
                                        && text_truthy (final_content r))
                    (List.filter blog_posts_where (blog_posts st)))
               ++ List.map pair_example
                    (List.filter training_pairs_where (training_pairs st))).
  { unfold c, collect_from_training_pairs, collect_from_blog_posts.
    cbn [examples conn]. rewrite training_pairs_loop_spec, blog_posts_loop_spec.
    reflexivity. }
  assert (Htw : match twitch_dir with
                | Some d => if negb (String.eqb d "") then collect_from_twitch c else c
                | None => c
                end = c).
  { destruct twitch_dir as [d|]; [|reflexivity].
    by destruct (negb (String.eqb d "")). }
  eexists. split; [reflexivity|]. rewrite Htw.
  unfold filter_by_quality. cbn [examples]. by rewrite Hc.
Qed.

(** X1. A run of the collection stage on a reachable store returns the
    examples of the published posts, in the order of the rows, followed by
    the examples of the labeled pairs, in the order of the rows, with the
    examples below the threshold taken out; the Twitch directory has no
    effect. *)
Theorem collect_main_order (st : store) (twitch_dir : option string)
    (tau : spec_float) :
  exists c,
    collect_main (Some st) twitch_dir tau = Ok c
    /\ examples c =
       List.filter (fun ex => float_ge (quality_score ex) tau)
         (List.map blog_example
            (List.filter (fun r => text_truthy (raw_transcription r)
                                   && text_truthy (final_content r))
               (List.filter blog_posts_where (blog_posts st)))
          ++ List.map pair_example
               (List.filter training_pairs_where (training_pairs st))).
Proof. apply collect_main_examples. Qed.

(** X2. The count printed for the published posts is the number of rows the
    query returned: it exceeds the number of examples added by the number of
    returned rows that have an empty text. The count printed for the labeled
    pairs is the number of examples added. *)
Theorem reported_counts (c : DataCollector) :
  (length (examples (collect_from_blog_posts c))
   + length (List.filter
               (fun r => negb (text_truthy (raw_transcription r)
                               && text_truthy (final_content r)))
               (List.filter blog_posts_where (blog_posts (conn c))))
   = length (examples c) + blog_posts_reported c)%nat
  /\ (length (examples (collect_from_training_pairs c))
      = length (examples c) + training_pairs_reported c)%nat.
Proof.
  unfold collect_from_blog_posts, collect_from_training_pairs,
    blog_posts_reported, training_pairs_reported. cbn [examples].
  rewrite blog_posts_loop_spec, training_pairs_loop_spec.
  rewrite !length_app, !length_map. split; [|reflexivity].
  rewrite <- Nat.add_assoc. f_equal.
  apply (filter_length_split
           (fun r => text_truthy (raw_transcription r)
                     && text_truthy (final_content r))).
Qed.

Lemma source_counts_loop_lookup (exs : list TrainingExample)
    (counts : gmap (option string) nat) (s : option string) :
  source_counts_loop exs counts !! s =
  match source_count s exs with
  | O => counts !! s
  | n => Some (default 0%nat (counts !! s) + n)%nat
  end.
Proof.
  revert counts. induction exs as [|ex exs IH]; intros counts; [reflexivity|].
  cbn [source_counts_loop]. rewrite IH. unfold source_count.
  cbn [List.filter]. destruct (decide (source_type ex = s)) as [Heq|Hne].
  - rewrite (bool_decide_eq_true_2 _ Heq). cbn [length]. rewrite Heq.
    rewrite lookup_insert_eq. cbn [default from_option].
    destruct (length _); f_equal; unfold default, from_option, id; lia.
  - rewrite (bool_decide_eq_false_2 _ Hne). by rewrite lookup_insert_ne.
Qed.

Lemma counts_total_insert (counts : gmap (option string) nat)
    (s : option string) (n : nat) :
  (counts_total (<[s := n]> counts) + default 0 (counts !! s)
   = counts_total counts + n)%nat.
Proof.
  unfold counts_total.
  destruct (counts !! s) as [v|] eqn:Hs; cbn [default from_option].
  - rewrite <- (insert_delete_eq counts s n).
    rewrite map_fold_insert_L; [|intros; lia|apply lookup_delete_eq].
    rewrite (map_fold_delete_L _ _ s v counts); [|intros; lia|exact Hs].
    unfold id. lia.
  - rewrite map_fold_insert_L; [|intros; lia|exact Hs]. lia.
Qed.

Lemma source_counts_loop_total (exs : list TrainingExample)
    (counts : gmap (option string) nat) :
  counts_total (source_counts_loop exs counts)
  = (counts_total counts + length exs)%nat.
Proof.
  revert counts. induction exs as [|ex exs IH]; intros counts;
    cbn [source_counts_loop length]; [lia|].
  rewrite IH.
  pose proof (counts_total_insert counts (source_type ex)
                (default 0 (counts !! source_type ex) + 1)%nat). lia.
Qed.

Lemma source_counts_lookup (c : DataCollector) (s : option string) :
  source_counts c !! s =
  match source_count s (examples c) with
  | O => None
  | n => Some n
  end.
Proof.
  unfold source_counts. rewrite source_counts_loop_lookup.
  rewrite lookup_empty. reflexivity.
Qed.

(** X3. The table of [print_stats] holds, for every source type that occurs
    among the examples, the number of examples of that source type, and no
    other entry; the counts add up to the number of examples. *)
Theorem source_counts_exact (c : DataCollector) :
  (forall s : option string,
     source_counts c !! s =
     match source_count s (examples c) with
     | O => None
     | n => Some n
     end)
  /\ counts_total (source_counts c) = length (examples c).
Proof.
  split.
  - intros s. unfold source_counts. rewrite source_counts_loop_lookup.
    rewrite lookup_empty. reflexivity.
  - unfold source_counts. rewrite source_counts_loop_total.
    unfold counts_total. by rewrite map_fold_empty.
Qed.

Lemma source_count_pos (s : option string) (exs : list TrainingExample) :
  source_count s exs <> 0%nat <-> exists ex, In ex exs /\ source_type ex = s.
Proof.
  unfold source_count. split.
  - intros Hn. destruct (List.filter _ exs) as [|ex l] eqn:Hf; [done|].
    assert (Hin : In ex (List.filter
                           (fun ex => bool_decide (source_type ex = s)) exs))
      by (rewrite Hf; by left).
    apply filter_In in Hin as [Hin Hs]. exists ex. split; [exact Hin|].
    by apply bool_decide_eq_true_1 in Hs.
  - intros (ex & Hin & Hs) Hn.
    assert (Hin' : In ex (List.filter
                            (fun ex => bool_decide (source_type ex = s)) exs)).
    { apply filter_In. split; [exact Hin|]. by apply bool_decide_eq_true_2. }
    destruct (List.filter _ exs); [destruct Hin'|discriminate].
Qed.

(** X4. The collection stage saves its output if and only if the store is
    reachable and no retained example has a NULL source type: such an
    example makes [print_stats] raise [TypeError] before anything is saved;
    otherwise the stage ends normally with the saved collection. *)
Theorem collect_stage_saves `{codec : JsonCodec} (st : store)
    (twitch_dir : option string) (tau : spec_float) (c : DataCollector) :
  collect_main (Some st) twitch_dir tau = Ok c ->
  ((exists ex, In ex (examples c) /\ source_type ex = None) ->
   collect_stage (Some st) twitch_dir tau
   = {| output_file := None; exit_status := Raise TypeError |})
  /\ ((forall ex, In ex (examples c) -> source_type ex <> None) ->
      collect_stage (Some st) twitch_dir tau
      = {| output_file := Some (save_to_jsonl c); exit_status := Ok tt |})
  /\ collect_stage None twitch_dir tau
     = {| output_file := None; exit_status := Raise SystemExit |}.
Proof.
  intros Hc. unfold collect_stage. rewrite Hc. unfold print_stats.
  rewrite (source_counts_lookup c None).
  split; [|split; [|reflexivity]].
  - intros Hex. apply source_count_pos in Hex.
    by destruct (source_count None (examples c)).
  - intros Hall. destruct (source_count None (examples c)) eqn:Hn; [reflexivity|].
    exfalso. assert (Hpos : source_count None (examples c) <> 0%nat) by lia.
    apply source_count_pos in Hpos as (ex & Hin & Hs). by apply (Hall ex).
Qed.

Lemma collect_main_collected (st : store) (twitch_dir : option string)
    (tau : spec_float) :
  exists c, collect_main (Some st) twitch_dir tau = Ok c
            /\ examples c = collected st tau.
Proof. apply collect_main_examples. Qed.

Lemma filter_filter_impl {A : Type} (p q : A -> bool) (l : list A) :
  (forall a, p a = true -> q a = true) ->
  List.filter p (List.filter q l) = List.filter p l.
Proof.
  intros Himp. induction l as [|a l IH]; [reflexivity|]. cbn [List.filter].
  destruct (q a) eqn:Hq; cbn [List.filter].
  - by rewrite IH.
  - destruct (p a) eqn:Hp; [|exact IH].
    apply Himp in Hp. congruence.
Qed.

Ltac compare_cases :=
  repeat match goal with
  | H : context [Z.compare ?x ?y] |- _ => destruct (Z.compare_spec x y)
  | |- context [Z.compare ?x ?y] => destruct (Z.compare_spec x y)
  | H : context [Pos.compare ?x ?y] |- _ => destruct (Pos.compare_spec x y)
  | |- context [Pos.compare ?x ?y] => destruct (Pos.compare_spec x y)
  end.

(** The comparison of floats is transitive, on every representation. *)
Lemma SFleb_trans (a b c : spec_float) :
  SFleb a b = true -> SFleb b c = true -> SFleb a c = true.
Proof.
  unfold SFleb.
  destruct a as [sa|sa| |sa ma ea], b as [sb|sb| |sb mb eb], c as [sc|sc| |sc mc ec];
    cbn [SFcompare]; try discriminate; try reflexivity;
    try (destruct sa; try discriminate; try reflexivity);
    try (destruct sb; try discriminate; try reflexivity);
    try (destruct sc; try discriminate; try reflexivity);
    try (intros; discriminate).
  all: rewrite ?Pos.compare_cont_spec; cbn [Pos.switch_Eq].
  all: intros H1 H2; compare_cases; cbn [CompOpp] in *;
    try discriminate; try reflexivity; try lia.
Qed.

(** X5. Raising the threshold only removes examples: for thresholds
    [tau1 <= tau2], filtering at [tau2] after filtering at [tau1], or the
    other way round, gives what filtering at [tau2] alone gives, and the
    examples kept at [tau2] are, in order, among those kept at [tau1]. *)
Theorem filter_by_quality_monotone (tau1 tau2 : spec_float) (c : DataCollector) :
  SFleb tau1 tau2 = true ->
  examples (filter_by_quality tau2 (filter_by_quality tau1 c))
  = examples (filter_by_quality tau2 c)
  /\ examples (filter_by_quality tau1 (filter_by_quality tau2 c))
     = examples (filter_by_quality tau2 c)
  /\ examples (filter_by_quality tau2 c)
     `sublist_of` examples (filter_by_quality tau1 c).
Proof.
  intros Hle. unfold filter_by_quality. cbn [examples].
  assert (Himp : forall ex, float_ge (quality_score ex) tau2 = true ->
                            float_ge (quality_score ex) tau1 = true).
  { intros ex. unfold float_ge. by apply SFleb_trans. }
  assert (H21 : List.filter (fun ex => float_ge (quality_score ex) tau2)
                  (List.filter (fun ex => float_ge (quality_score ex) tau1)
                     (examples c))
                = List.filter (fun ex => float_ge (quality_score ex) tau2)
                    (examples c)).
  { by apply (filter_filter_impl
                (fun ex => float_ge (quality_score ex) tau2)
                (fun ex => float_ge (quality_score ex) tau1)). }
  split; [exact H21|]. split.
  - set (l := examples c). clearbody l.
    induction l as [|ex l IH]; [reflexivity|]. cbn [List.filter].
    destruct (float_ge (quality_score ex) tau2) eqn:H2; cbn [List.filter].
    + rewrite (Himp ex H2). by rewrite IH.
    + exact IH.
  - rewrite <- H21. apply filter_sublist.
Qed.

Lemma SFleb_nan_r (x : spec_float) : SFleb x S754_nan = false.
Proof. by destruct x as [s|s| |s m e]. Qed.

(** X6. An example whose score is not a number is removed at every
    threshold, and a threshold that is not a number removes every
    example. *)
Theorem filter_by_quality_nan (tau : spec_float) (c : DataCollector) :
  examples (filter_by_quality S754_nan c) = []
  /\ Forall (fun ex => quality_score ex <> S754_nan)
            (examples (filter_by_quality tau c)).
Proof.
  unfold filter_by_quality. cbn [examples]. split.
  - apply (filter_none (fun ex => float_ge (quality_score ex) S754_nan)).
    apply Forall_forall. intros ex _. reflexivity.
  - apply List.Forall_forall. intros ex Hin. apply filter_In in Hin as [_ Hge].
    intros Hnan. rewrite Hnan in Hge. unfold float_ge in Hge.
    by rewrite SFleb_nan_r in Hge.
Qed.

Lemma quality_or_default_truthy (q : option spec_float) :
  float_truthy (quality_or_default q) = true.
Proof.
  unfold quality_or_default. destruct q as [f|]; [|reflexivity].
  by destruct (float_truthy f) eqn:Hf.
Qed.

Lemma metadata_or_default_shape (m : option json) :
  metadata_or_default m = JObj ∅ \/ json_truthy (metadata_or_default m) = true.
Proof.
  unfold metadata_or_default. destruct m as [v|]; [|by left].
  destruct (json_truthy v) eqn:Hv; [by right|by left].
Qed.

(** X7. No example that a run of the collection stage ends with has a zero
    quality score, and the metadata of each is a non-empty value or the
    empty object (never null): a missing score or metadata is replaced
    before the example is stored. *)
Theorem collected_never_zero_or_null (st : store) (twitch_dir : option string)
    (tau : spec_float) :
  exists c,
    collect_main (Some st) twitch_dir tau = Ok c
    /\ Forall (fun ex => float_truthy (quality_score ex) = true
                         /\ (metadata ex = JObj ∅
                             \/ json_truthy (metadata ex) = true))
              (examples c).
Proof.
  destruct (collect_main_collected st twitch_dir tau) as (c & Hc & Hex).
  exists c. split; [exact Hc|]. rewrite Hex. unfold collected.
  apply List.Forall_forall. intros ex Hin. apply filter_In in Hin as [Hin _].
  apply in_app_or in Hin as [Hin|Hin]; apply in_map_iff in Hin as (r & <- & _).
  - split; [reflexivity|]. right. cbn [blog_example metadata json_truthy].
    apply negb_true_iff, Nat.eqb_neq. intros Hsize.
    apply map_size_empty_iff in Hsize. by apply insert_non_empty in Hsize.
  - cbn [pair_example quality_score metadata].
    split; [apply quality_or_default_truthy|apply metadata_or_default_shape].
Qed.

End CollectionReports.

(** * Further properties of the preparation stage *)

Section Pipeline.

Context `{codec : JsonCodec}.

Lemma rmap_map_ok {A B C : Type} (f : B -> result C) (g : A -> B) (h : A -> C)
    (l : list A) :
  (forall a, In a l -> f (g a) = Ok (h a)) ->
  rmap f (List.map g l) = Ok (List.map h l).
Proof.
  induction l as [|a l IH]; intros Hall; [reflexivity|].
  cbn [List.map rmap]. rewrite (Hall a) by (by left). cbn [rbind].
  rewrite IH by (intros a' Ha'; apply Hall; by right). reflexivity.
Qed.

Lemma format_to_dict (ex : TrainingExample) :
  format_as_instruction (to_dict ex) = Ok (formatted_of_example ex).
Proof.
  unfold to_dict.
  rewrite (format_as_instruction_obj _ (json_of_text (input_text ex))
             (json_of_text (output_text ex))).
  - rewrite lookup_insert_ne by done. rewrite lookup_insert_ne by done.
    rewrite lookup_insert_eq. reflexivity.
  - by rewrite lookup_insert_eq.
  - rewrite lookup_insert_ne by done. by rewrite lookup_insert_eq.
Qed.

(** X8. Formatting a record as the collection stage writes it never raises
    and never applies the "unknown" default: the source of the formatted
    record is the stored source type, null when that is NULL, and the input
    and output are the stored texts, null when NULL. *)
Theorem format_collected_record (ex : TrainingExample) :
  exists f,
    format_as_instruction (to_dict ex) = Ok f
    /\ input f = json_of_text (input_text ex)
    /\ output f = json_of_text (output_text ex)
    /\ source f = json_of_text (source_type ex)
    /\ (source f = JStr "unknown" <-> source_type ex = Some "unknown")
    /\ (source f = JNull <-> source_type ex = None).
Proof.
  exists (formatted_of_example ex). split; [apply format_to_dict|].
  cbn [formatted_of_example input output source].
  repeat (split; [reflexivity|]).
  destruct (source_type ex) as [s|]; cbn [json_of_text]; split; split;
    try (intros [= ->]; reflexivity); try (intros [=]); try reflexivity.
Qed.

(** X9. The two stages compose: under the contract of the codec on the
    written records, reading the file saved by the collection stage and
    formatting what was read succeeds and yields, in order, one formatted
    record for each collected example. *)
Theorem pipeline_formats_collected (c : DataCollector) :
  (forall ex, In ex (examples c) ->
     json_loads (String.append (json_dumps (to_dict ex)) newline) = Ok (to_dict ex)) ->
  (forall ex, In ex (examples c) ->
     no_line_break (json_dumps (to_dict ex)) = true) ->
  exists records,
    load_examples (save_to_jsonl c) = Ok records
    /\ format_all records = Ok (List.map formatted_of_example (examples c)).
Proof.
  intros Hrt Hnl. exists (List.map to_dict (examples c)). split.
  - unfold save_to_jsonl. apply load_jsonl_text.
    + intros d Hd. apply in_map_iff in Hd as (ex & <- & Hex). by apply Hrt.
    + intros d Hd. apply in_map_iff in Hd as (ex & <- & Hex). by apply Hnl.
  - unfold format_all. apply rmap_map_ok. intros ex _. apply format_to_dict.
Qed.

Lemma format_as_instruction_cases (v : json) :
  has_texts v
  \/ (exists m, v = JObj m /\ format_as_instruction v = Raise KeyError)
  \/ ((forall m, v <> JObj m) /\ format_as_instruction v = Raise TypeError).
Proof.
  destruct v as [| | | | | |m]; try (right; right; split; [done|reflexivity]).
  unfold format_as_instruction, subscript.
  destruct (m !! "input_text") as [i|] eqn:Hi; cbn [rbind].
  - destruct (m !! "output_text") as [o|] eqn:Ho; cbn [rbind].
    + left. by exists m, i, o.
    + right. left. by exists m.
  - right. left. by exists m.
Qed.

Lemma has_texts_format_ok (v : json) :
  has_texts v <-> exists f, format_as_instruction v = Ok f.
Proof.
  split.
  - intros (m & i & o & -> & Hi & Ho). eexists.
    by apply format_as_instruction_obj.
  - intros [f Hf].
    destruct (format_as_instruction_cases v) as [H|[(m & _ & H)|[_ H]]];
      [exact H|congruence|congruence].
Qed.

(** X17. Formatting succeeds exactly when every record read is an object
    that holds both text keys. A record that is an object without one of
    the keys raises [KeyError], a record that is no object raises
    [TypeError]; the first such record aborts the stage before anything is
    written. *)
Theorem format_all_ok_iff {G : Type} `{Rng G} (records : list json) :
  (Forall has_texts records <-> exists formatted, format_all records = Ok formatted)
  /\ (forall v, In v records -> ~ has_texts v ->
        exists e, format_all records = Raise e
                  /\ (e = KeyError \/ e = TypeError))
  /\ (forall (content : string) (e : py_error) (g0 : G) seed rho,
        load_examples content = Ok records ->
        format_all records = Raise e ->
        prepare_main g0 seed content rho = aborted e).
Proof.
  split; [|split].
  - split.
    + intros Hall. apply rmap_ok. intros v Hv.
      rewrite List.Forall_forall in Hall. by apply has_texts_format_ok, Hall.
    + intros [formatted Hf]. apply rmap_ok_inv in Hf.
      apply List.Forall_forall. intros v Hv.
      apply list_elem_of_In, list_elem_of_lookup in Hv as [i Hi].
      destruct (Forall2_lookup_ok _ _ _ Hf) as [_ Hl].
      destruct (Hl i v Hi) as (f & _ & Hfv). apply has_texts_format_ok. by exists f.
  - intros v. unfold format_all.
    induction records as [|a l IH]; intros Hin Hno; [destruct Hin|].
    cbn [rmap].
    destruct (format_as_instruction_cases a) as [Ha|[(m & _ & Ha)|[_ Ha]]].
    + destruct Hin as [->|Hin]; [by destruct Hno|].
      apply has_texts_format_ok in Ha as [f ->]. cbn [rbind].
      destruct (IH Hin Hno) as (e & -> & He). cbn [rbind]. by exists e.
    + rewrite Ha. cbn [rbind]. exists KeyError. by split; [|left].
    + rewrite Ha. cbn [rbind]. exists TypeError. by split; [|right].
  - intros content e g0 seed rho Hload Hfmt. unfold prepare_main.
    by rewrite Hload, Hfmt.
Qed.

(** A text without line ending followed by carriage return and line feed is
    handed over as one line that ends in a line feed. *)
Lemma file_lines_from_crlf (s rest cur : string) :
  no_line_break s = true ->
  file_lines_from (String.append s (String CR (String LF rest))) cur =
  String.append cur (String.append s newline) :: file_lines_from rest EmptyString.
Proof.
  revert cur. induction s as [|x s IH]; intros cur Hs.
  - rewrite !append_nil. reflexivity.
  - cbn [no_line_break] in Hs.
    apply andb_prop in Hs as [Hx Hs]. apply andb_prop in Hx as [Hlf Hcr].
    apply negb_true_iff in Hlf, Hcr.
    rewrite !append_cons. cbn [file_lines_from]. rewrite Hlf, Hcr.
    rewrite (IH _ Hs). rewrite append_assoc, append_cons, append_nil. reflexivity.
Qed.

(** X16. The reader accepts a file whose lines end in carriage return and
    line feed: under the contract of the codec, it yields the same records
    as for the file with plain line feeds. *)
Theorem load_examples_crlf (docs : list json) :
  (forall d, In d docs ->
     json_loads (String.append (json_dumps d) newline) = Ok d) ->
  (forall d, In d docs -> no_line_break (json_dumps d) = true) ->
  load_examples (jsonl_text_crlf docs) = Ok docs
  /\ load_examples (jsonl_text_crlf docs) = load_examples (jsonl_text docs).
Proof.
  intros Hrt Hnl.
  assert (Hcrlf : load_examples (jsonl_text_crlf docs) = Ok docs).
  { unfold load_examples, file_lines.
    induction docs as [|d docs IH]; [reflexivity|].
    cbn [jsonl_text_crlf].
    rewrite file_lines_from_crlf by (apply Hnl; by left).
    cbn [rmap]. rewrite append_nil. rewrite (Hrt d) by (by left). cbn [rbind].
    rewrite IH; [reflexivity| |]; intros d' Hd'; [apply Hrt|apply Hnl]; by right. }
  split; [exact Hcrlf|]. rewrite Hcrlf. symmetry. by apply load_jsonl_text.
Qed.

End Pipeline.

Section StageOutcome.

Context {G : Type} `{rng : Rng G} `{codec : JsonCodec}.

Lemma py_len_ok_iff (v : json) : (exists n, py_len v = Ok n) <-> has_len v = true.
Proof.
  destruct v; cbn [py_len has_len]; split; intros H; try by eauto.
  all: by destruct H.
Qed.

Lemma rmap_ok_iff {A B : Type} (f : A -> result B) (l : list A) :
  (exists bs, rmap f l = Ok bs) <-> Forall (fun a => exists b, f a = Ok b) l.
Proof.
  split.
  - intros [bs Hbs]. apply rmap_ok_inv in Hbs.
    induction Hbs; constructor; eauto.
  - intros Hall. apply rmap_ok. by apply List.Forall_forall.
Qed.

Lemma rmap_nil_inv {A B : Type} (f : A -> result B) (l : list A) :
  rmap f l = Ok [] -> l = [].
Proof.
  destruct l as [|a l]; [done|]. cbn [rmap].
  destruct (f a); cbn [rbind]; [|done]. by destruct (rmap f l).
Qed.

(** The statistics of a split are computed without error exactly when the
    split is not empty and every input and output has a length. *)
Lemma calc_stats_ok_iff (l : list FormattedExample) :
  calc_stats l = Ok tt <->
  l <> [] /\ Forall (fun f => has_len (input f) = true
                              /\ has_len (output f) = true) l.
Proof.
  unfold calc_stats. split.
  - intros Hc.
    destruct (rmap (fun ex => py_len (input ex)) l) as [il|e] eqn:Hi;
      cbn [rbind] in Hc; [|done].
    destruct (rmap (fun ex => py_len (output ex)) l) as [ol|e] eqn:Ho;
      cbn [rbind] in Hc; [|done].
    split.
    + intros ->. cbn in Hi. injection Hi as <-. done.
    + assert (H1 : Forall (fun a => exists b, py_len (input a) = Ok b) l)
        by (apply rmap_ok_iff; eauto).
      assert (H2 : Forall (fun a => exists b, py_len (output a) = Ok b) l)
        by (apply rmap_ok_iff; eauto).
      rewrite List.Forall_forall in H1, H2. apply List.Forall_forall.
      intros f Hf. split; apply py_len_ok_iff; eauto.
  - intros [Hne Hall].
    assert (H1 : exists il, rmap (fun ex => py_len (input ex)) l = Ok il).
    { apply rmap_ok_iff. eapply List.Forall_impl; [|exact Hall].
      intros f [Hf _]. by apply py_len_ok_iff. }
    assert (H2 : exists ol, rmap (fun ex => py_len (output ex)) l = Ok ol).
    { apply rmap_ok_iff. eapply List.Forall_impl; [|exact Hall].
      intros f [_ Hf]. by apply py_len_ok_iff. }
    destruct H1 as [il Hi], H2 as [ol Ho]. rewrite Hi, Ho. cbn [rbind].
    destruct il; [|reflexivity]. apply rmap_nil_inv in Hi. done.
Qed.

Lemma prepare_split_inv (g0 : G) (seed : Z) (formatted : list FormattedExample)
    (rho : spec_float) (train val : list FormattedExample) :
  prepare_split g0 seed formatted rho = Ok (train, val) ->
  exists x k,
    x ≡ₚ formatted
    /\ split_index (length formatted) rho = Ok k
    /\ train = take (slice_bound k (length formatted)) x
    /\ val = drop (slice_bound k (length formatted)) x.
Proof.
  unfold prepare_split, split_dataset.
  destruct (shuffle formatted (rng_seed seed)) as [[x g']|e] eqn:Hsh;
    cbn [rbind]; [|done].
  assert (Hperm : x ≡ₚ formatted) by (by eapply shuffle_loop_Permutation).
  rewrite (Permutation_length Hperm).
  destruct (split_index (length formatted) rho) as [k|e]; cbn [rbind]; [|done].
  intros [= <- <-]. by exists x, k.
Qed.

Lemma prepare_split_Permutation (g0 : G) (seed : Z)
    (formatted : list FormattedExample) (rho : spec_float)
    (train val : list FormattedExample) :
  prepare_split g0 seed formatted rho = Ok (train, val) ->
  train ++ val ≡ₚ formatted.
Proof.
  intros Hs. apply prepare_split_inv in Hs as (x & k & Hperm & _ & -> & ->).
  by rewrite take_drop.
Qed.

(** X10. When the stage has split the formatted records, the two files it
    writes decode, under the contract of the codec on the formatted
    records, to the train and the validation sequence in their order, and
    the two sequences together are a permutation of the formatted input:
    no record is lost or duplicated between the input file and the two
    output files. *)
Theorem prepare_files_decode (g0 : G) (seed : Z) (content : string)
    (rho : spec_float) (records : list json)
    (formatted train val : list FormattedExample) :
  load_examples content = Ok records ->
  format_all records = Ok formatted ->
  prepare_split g0 seed formatted rho = Ok (train, val) ->
  (forall f, In f formatted ->
     json_loads (String.append (json_dumps (formatted_to_dict f)) newline)
     = Ok (formatted_to_dict f)) ->
  (forall f, In f formatted ->
     no_line_break (json_dumps (formatted_to_dict f)) = true) ->
  exists tf vf,
    train_file (prepare_main g0 seed content rho) = Some tf
    /\ val_file (prepare_main g0 seed content rho) = Some vf
    /\ load_examples tf = Ok (List.map formatted_to_dict train)
    /\ load_examples vf = Ok (List.map formatted_to_dict val)
    /\ train ++ val ≡ₚ formatted.
Proof.
  intros Hload Hfmt Hsplit Hrt Hnl.
  pose proof (prepare_split_Permutation _ _ _ _ _ _ Hsplit) as Hperm.
  assert (Hin : forall f, In f (train ++ val) -> In f formatted).
  { intros f Hf. apply list_elem_of_In. rewrite <- Hperm.
    by apply list_elem_of_In. }
  unfold prepare_main. rewrite Hload, Hfmt, Hsplit. cbn [train_file val_file].
  eexists _, _. split; [reflexivity|]. split; [reflexivity|].
  split; [|split; [|exact Hperm]]; apply load_jsonl_text;
    intros d Hd; apply in_map_iff in Hd as (f & <- & Hf);
    (apply Hrt || apply Hnl); apply Hin, in_or_app; auto.
Qed.

Lemma prepare_main_finished (g0 : G) (seed : Z) (content : string)
    (rho : spec_float) (records : list json)
    (formatted train val : list FormattedExample) :
  load_examples content = Ok records ->
  format_all records = Ok formatted ->
  prepare_split g0 seed formatted rho = Ok (train, val) ->
  (exists tf vf, train_file (prepare_main g0 seed content rho) = Some tf
                 /\ val_file (prepare_main g0 seed content rho) = Some vf)
  /\ (finished (prepare_main g0 seed content rho) = Ok tt <->
      train <> [] /\ val <> []
      /\ Forall (fun f => has_len (input f) = true
                          /\ has_len (output f) = true) formatted).
Proof.
  intros Hload Hfmt Hsplit.
  pose proof (prepare_split_Permutation _ _ _ _ _ _ Hsplit) as Hperm.
  unfold prepare_main. rewrite Hload, Hfmt, Hsplit.
  cbn [train_file val_file finished]. split; [by eexists _, _|].
  rewrite <- Hperm, Forall_app. split.
  - intros Hfin. destruct (calc_stats train) as [[]|e] eqn:Ht; cbn [rbind] in Hfin;
      [|done].
    apply calc_stats_ok_iff in Ht as [? ?]. apply calc_stats_ok_iff in Hfin as [? ?].
    done.
  - intros (Ht & Hv & Hat & Hav).
    assert (H1 : calc_stats train = Ok tt) by (by apply calc_stats_ok_iff).
    rewrite H1. cbn [rbind]. by apply calc_stats_ok_iff.
Qed.

(** X11. Once the stage has split the formatted records it writes both
    files, and it then ends without an exception exactly when neither split
    is empty and every input and output has a length: an empty split makes
    the statistics divide by zero, a null text has no length. *)
Theorem prepare_finishes_iff (g0 : G) (seed : Z) (content : string)
    (rho : spec_float) (records : list json)
    (formatted train val : list FormattedExample) :
  load_examples content = Ok records ->
  format_all records = Ok formatted ->
  prepare_split g0 seed formatted rho = Ok (train, val) ->
  (exists tf vf, train_file (prepare_main g0 seed content rho) = Some tf
                 /\ val_file (prepare_main g0 seed content rho) = Some vf)
  /\ (finished (prepare_main g0 seed content rho) = Ok tt <->
      train <> [] /\ val <> []
      /\ Forall (fun f => has_len (input f) = true
                          /\ has_len (output f) = true) formatted).
Proof. apply prepare_main_finished. Qed.

End StageOutcome.

(** * Ratios outside the open unit interval *)

Section RatioEdges.

(** The sign of a rounded product is the sign it is given; mantissa and
    exponent do not depend on it. *)
Lemma round_aux_sign (s : bool) (m e : Z) (l : location) :
  binary_round_aux 53 1024 s m e l =
  match binary_round_aux 53 1024 false m e l with
  | S754_zero _ => S754_zero s
  | S754_infinity _ => S754_infinity s
  | S754_nan => S754_nan
  | S754_finite _ m' e' => S754_finite s m' e'
  end.
Proof.
  unfold binary_round_aux.
  destruct (shr_fexp 53 1024 m e l) as [r1 e1].
  destruct (shr_fexp 53 1024 _ e1 loc_Exact) as [r2 e2].
  destruct (shr_m r2); [reflexivity| |reflexivity].
  by destruct (e2 <=? 1024 - 53).
Qed.

(** The index computation for a finite ratio [m * 2^e] with [e <= 0] whose
    product with the number of examples is at most [B < 2^53], and for the
    ratio of opposite sign. *)
Lemma split_index_finite (n : nat) (m : positive) (e B : Z) :
  0 < Z.of_nat n < 2 ^ 53 -> e <= 0 -> 0 <= B < 2 ^ 53 ->
  Z.of_nat n * Zpos m <= B * 2 ^ (- e) ->
  exists k,
    split_index n (S754_finite false m e) = Ok k
    /\ split_index n (S754_finite true m e) = Ok (- k)
    /\ (Z.of_nat n * Zpos m) / 2 ^ (- e) <= k
       <= (Z.of_nat n * Zpos m) / 2 ^ (- e) + 1
    /\ 0 <= k <= B.
Proof.
  intros Hn He HB Hm. unfold split_index.
  destruct (float_of_int_pos (Z.of_nat n) Hn) as (mz & ez & -> & Hez & Hmz).
  cbn [rbind]. unfold float_mul, prec64, emax64. cbn [SFmul xorb].
  assert (Hpe : 0 < 2 ^ (- e)) by (apply Z.pow_pos_nonneg; lia).
  assert (Hpz : 0 < 2 ^ (- ez)) by (apply Z.pow_pos_nonneg; lia).
  assert (Hpow : 2 ^ (- (ez + e)) = 2 ^ (- ez) * 2 ^ (- e)).
  { rewrite <- Z.pow_add_r by lia. f_equal. lia. }
  destruct (round_aux_trunc (mz * m) (ez + e) B) as (k & Hk & Hfl & Hub).
  { lia. } { lia. }
  { rewrite Pos2Z.inj_mul, Hmz, Hpow. nia. }
  assert (HF : Z.pos (mz * m) / 2 ^ (- (ez + e))
               = (Z.of_nat n * Zpos m) / 2 ^ (- e)).
  { rewrite Pos2Z.inj_mul, Hmz, Hpow.
    replace (Z.of_nat n * 2 ^ (- ez) * Z.pos m)
      with (2 ^ (- ez) * (Z.of_nat n * Z.pos m)) by lia.
    apply Z.div_mul_cancel_l; lia. }
  rewrite HF in Hfl.
  assert (H0 : 0 <= (Z.of_nat n * Zpos m) / 2 ^ (- e)) by (apply Z.div_pos; lia).
  exists k. split; [exact Hk|]. split; [|split; [exact Hfl|lia]].
  rewrite round_aux_sign.
  destruct (binary_round_aux 53 1024 false (Z.pos (mz * m)) (ez + e) loc_Exact)
    as [s0|s0| |s0 m0 e0]; cbn [int_of_float] in Hk |- *; try discriminate Hk.
  - injection Hk as <-. reflexivity.
  - injection Hk as <-. f_equal.
    assert (Hsh : 0 <= Z.shiftl (Z.pos m0) e0) by (apply Z.shiftl_nonneg; lia).
    destruct s0; cbn [cond_Zopp] in *; lia.
Qed.

Context {G : Type} `{rng : Rng G} {below : RngBelow G} `{codec : JsonCodec}.

Lemma split_lengths (g : G) (formatted : list FormattedExample)
    (rho : spec_float) (k : Z) :
  split_index (length formatted) rho = Ok k ->
  exists train val g',
    split_dataset formatted rho g = Ok (train, val, g')
    /\ train ++ val ≡ₚ formatted
    /\ length train = slice_bound k (length formatted)
    /\ (length train + length val = length formatted)%nat.
Proof.
  intros Hk.
  destruct (split_dataset_tagged formatted rho g k Hk)
    as (tagged & g' & Hperm & Hsplit).
  assert (Hlen : length tagged = length formatted).
  { rewrite (Permutation_length Hperm), length_zip, length_seq. lia. }
  set (b := slice_bound k (length formatted)) in *.
  assert (Hb : (b <= length formatted)%nat).
  { unfold b, slice_bound. destruct (Z.ltb_spec k 0); lia. }
  exists (take b tagged).*2, (drop b tagged).*2, g'.
  split; [exact Hsplit|]. split; [|split].
  - rewrite <- fmap_app, take_drop, Hperm. rewrite snd_zip; [done|].
    by rewrite length_seq.
  - rewrite length_fmap, length_take. lia.
  - rewrite !length_fmap, length_take, length_drop. lia.
Qed.

(** X12. A negative train ratio is not rejected: the negative split index
    counts from the end of the shuffled list. For a ratio [rho] in the unit
    interval whose split index is [k > 0], the ratio [- rho] puts [N - k]
    examples in the train split and [k] in the validation split (so that
    [-0.1] splits as [0.9] does); when [k = 0] the train split is empty. *)
Theorem negative_ratio_counts_from_end (g0 : G) (seed : Z)
    (formatted : list FormattedExample) (m : positive) (e : Z) :
  Z.of_nat (length formatted) < 2 ^ 53 ->
  unit_ratio (S754_finite false m e) = true ->
  exists train val k,
    split_index (length formatted) (S754_finite false m e) = Ok k
    /\ 0 <= k <= Z.of_nat (length formatted)
    /\ prepare_split g0 seed formatted (S754_finite true m e) = Ok (train, val)
    /\ train ++ val ≡ₚ formatted
    /\ Z.of_nat (length train)
       = (if k =? 0 then 0 else Z.of_nat (length formatted) - k)
    /\ Z.of_nat (length val)
       = (if k =? 0 then Z.of_nat (length formatted) else k).
Proof.
  intros Hn Hrho. cbn [unit_ratio] in Hrho.
  apply andb_prop in Hrho as [He Hm]. apply Z.leb_le in He, Hm.
  assert (Hidx : exists k,
             split_index (length formatted) (S754_finite false m e) = Ok k
             /\ split_index (length formatted) (S754_finite true m e) = Ok (- k)
             /\ 0 <= k <= Z.of_nat (length formatted)).
  { destruct (Z.eq_dec (Z.of_nat (length formatted)) 0) as [H0|H0].
    - exists 0. unfold split_index. rewrite H0. repeat split; try reflexivity; lia.
    - destruct (split_index_finite (length formatted) m e
                  (Z.of_nat (length formatted)))
        as (k & Hp & Hneg & _ & Hr); try lia.
      { assert (0 < 2 ^ (- e)) by (apply Z.pow_pos_nonneg; lia). nia. }
      by exists k. }
  destruct Hidx as (k & Hp & Hneg & Hr).
  destruct (split_lengths (rng_seed seed) formatted _ _ Hneg)
    as (train & val & g' & Hs & Hperm & Hlt & Hsum).
  exists train, val, k. split; [exact Hp|]. split; [exact Hr|].
  split; [unfold prepare_split; by rewrite Hs|]. split; [exact Hperm|].
  assert (Htrain : Z.of_nat (length train)
                   = (if k =? 0 then 0 else Z.of_nat (length formatted) - k)).
  { rewrite Hlt. unfold slice_bound.
    destruct (Z.eqb_spec k 0) as [->|Hk0].
    - change (- 0) with 0. destruct (Z.ltb_spec 0 0); lia.
    - destruct (Z.ltb_spec (- k) 0); lia. }
  split; [exact Htrain|]. destruct (k =? 0); lia.
Qed.

(** X13. A train ratio of one or more is not rejected either: for a ratio
    [m * 2^e >= 1] whose product with the number [N] of examples stays
    below [2^53], every example goes to the train split and the validation
    split is empty. *)
Theorem ratio_above_one_all_train (g0 : G) (seed : Z)
    (formatted : list FormattedExample) (m : positive) (e : Z) :
  e <= 0 ->
  2 ^ (- e) <= Zpos m ->
  Z.of_nat (length formatted) * Zpos m <= (2 ^ 53 - 1) * 2 ^ (- e) ->
  exists train,
    prepare_split g0 seed formatted (S754_finite false m e) = Ok (train, [])
    /\ train ≡ₚ formatted.
Proof.
  intros He Hone Hprod.
  assert (Hpe : 0 < 2 ^ (- e)) by (apply Z.pow_pos_nonneg; lia).
  assert (Hn : Z.of_nat (length formatted) < 2 ^ 53) by nia.
  assert (Hidx : exists k,
             split_index (length formatted) (S754_finite false m e) = Ok k
             /\ Z.of_nat (length formatted) <= k).
  { destruct (Z.eq_dec (Z.of_nat (length formatted)) 0) as [H0|H0].
    - exists 0. unfold split_index. rewrite H0. split; [reflexivity|lia].
    - destruct (split_index_finite (length formatted) m e (2 ^ 53 - 1))
        as (k & Hp & _ & [Hlo _] & _); try lia.
      exists k. split; [exact Hp|].
      assert (Z.of_nat (length formatted)
              <= (Z.of_nat (length formatted) * Zpos m) / 2 ^ (- e)); [|lia].
      apply Z.div_le_lower_bound; [lia|]. nia. }
  destruct Hidx as (k & Hk & Hge).
  destruct (split_lengths (rng_seed seed) formatted _ _ Hk)
    as (train & val & g' & Hs & Hperm & Hlt & Hsum).
  assert (Hb : slice_bound k (length formatted) = length formatted).
  { unfold slice_bound. destruct (Z.ltb_spec k 0); lia. }
  assert (Hval : val = []) by (apply length_zero_iff_nil; lia).
  subst val. exists train. split.
  - unfold prepare_split. by rewrite Hs.
  - by rewrite app_nil_r in Hperm.
Qed.


End RatioEdges.

(** * Runs on reference inputs *)

Lemma collect_stage_saves_witness :
  @collect_stage line_codec (Some store_null_source) None float_0_5
  = {| output_file := None; exit_status := Raise TypeError |}.
Proof.
  refine (proj1 (@collect_stage_saves line_codec store_null_source None float_0_5
                   _ eq_refl) _).
  eexists. split; [left; reflexivity|]. reflexivity.
Defined.

Lemma filter_by_quality_monotone_witness :
  examples (filter_by_quality float_0_9 (filter_by_quality float_0_5 collector_ab))
  = examples (filter_by_quality float_0_9 collector_ab).
Proof.
  refine (proj1 (filter_by_quality_monotone float_0_5 float_0_9 collector_ab _)).
  vm_compute. reflexivity.
Defined.

Lemma pipeline_formats_collected_witness :
  exists records,
    @load_examples line_codec (@save_to_jsonl line_codec collector_ab) = Ok records
    /\ format_all records
       = Ok (List.map formatted_of_example (examples collector_ab)).
Proof.
  apply (@pipeline_formats_collected line_codec collector_ab).
  - intros ex [<-|[<-|[]]]; vm_compute; reflexivity.
  - intros ex [<-|[<-|[]]]; vm_compute; reflexivity.
Defined.

Lemma load_examples_crlf_witness :
  @load_examples line_codec
    (@jsonl_text_crlf line_codec (List.map to_dict (examples collector_ab)))
  = Ok (List.map to_dict (examples collector_ab)).
Proof.
  refine (proj1 (@load_examples_crlf line_codec
                   (List.map to_dict (examples collector_ab)) _ _)).
  - intros d [<-|[<-|[]]]; vm_compute; reflexivity.
  - intros d [<-|[<-|[]]]; vm_compute; reflexivity.
Defined.

Lemma prepare_files_decode_witness :
  exists tf vf train val,
    train_file (@prepare_main Z lcg_rng stage_codec 0 42 content_three float_0_5)
    = Some tf
    /\ val_file (@prepare_main Z lcg_rng stage_codec 0 42 content_three float_0_5)
       = Some vf
    /\ @load_examples stage_codec tf = Ok (List.map formatted_to_dict train)
    /\ @load_examples stage_codec vf = Ok (List.map formatted_to_dict val).
Proof.
  destruct (@prepare_files_decode Z lcg_rng stage_codec 0 42 content_three float_0_5
              (List.map to_dict [family_example "a"; family_example "b";
                                 family_example "c"])
              (List.map formatted_of_example
                 [family_example "a"; family_example "b"; family_example "c"])
              [formatted_of_example (family_example "b")]
              [formatted_of_example (family_example "c");
               formatted_of_example (family_example "a")])
    as (tf & vf & Htf & Hvf & Ht & Hv & _).
  - vm_compute. reflexivity.
  - vm_compute. reflexivity.
  - vm_compute. reflexivity.
  - intros f [<-|[<-|[<-|[]]]]; vm_compute; reflexivity.
  - intros f [<-|[<-|[<-|[]]]]; vm_compute; reflexivity.
  - by eexists tf, vf, _, _.
Defined.

Lemma prepare_finishes_iff_witness :
  finished (@prepare_main Z lcg_rng stage_codec 0 42 content_three float_0_5)
  = Ok tt.
Proof.
  destruct (@prepare_finishes_iff Z lcg_rng stage_codec 0 42 content_three float_0_5
              (List.map to_dict [family_example "a"; family_example "b";
                                 family_example "c"])
              (List.map formatted_of_example
                 [family_example "a"; family_example "b"; family_example "c"])
              [formatted_of_example (family_example "b")]
              [formatted_of_example (family_example "c");
               formatted_of_example (family_example "a")])
    as [_ [_ Hfin]].
  - vm_compute. reflexivity.
  - vm_compute. reflexivity.
  - vm_compute. reflexivity.
  - apply Hfin. split; [discriminate|]. split; [discriminate|].
    repeat constructor.
Defined.

Lemma negative_ratio_counts_from_end_witness :
  exists train val,
    prepare_split (G := Z) 0 42 ten_records
      (S754_finite true 7205759403792794 (-56)) = Ok (train, val)
    /\ Z.of_nat (length train) = 9
    /\ Z.of_nat (length val) = 1.
Proof.
  destruct (negative_ratio_counts_from_end (below := lcg_below) 0 42 ten_records
              7205759403792794 (-56))
    as (train & val & k & Hk & _ & Hs & _ & Ht & Hv).
  - vm_compute. reflexivity.
  - vm_compute. reflexivity.
  - assert (Hk1 : split_index (length ten_records) float_0_1 = Ok 1)
      by (vm_compute; reflexivity).
    unfold float_0_1 in Hk1. rewrite Hk1 in Hk. injection Hk as <-.
    exists train, val. split; [exact Hs|]. split; [exact Ht|exact Hv].
Defined.

Lemma ratio_above_one_all_train_witness :
  exists train,
    prepare_split (G := Z) 0 42 ten_records float_1_5 = Ok (train, [])
    /\ train ≡ₚ ten_records.
Proof.
  apply (ratio_above_one_all_train (below := lcg_below) 0 42 ten_records
           6755399441055744 (-52)).
  - lia.
  - vm_compute. discriminate.
  - vm_compute. discriminate.
Defined.

